(** * Duel visualisation generator: the dataset builder and the chart layout

    A shallow embedding of [generate_duels_viz.py].  The data frames of the
    source are lists of typed rows, the dictionaries it returns are records,
    and the exceptions it can raise are the [Err] results of a small error
    monad.  Library calls are modelled by what they do on the data the
    program hands them:

    - the client answers every request; a row of its frames has every column
      the program reads, once;
    - a pandas column of counts is a column of [option Z], [None] standing
      for NaN; [fillna(0.0)] turns [None] into [0]; the total of two counts
      wraps around as the sum of two [int64] columns does;
    - [sort_values] on several columns is a lexicographic sort that keeps
      the frame order of the rows it cannot tell apart;
    - the arrays of [create_chart] hold integer counts converted to
      float64; sums and paddings on them are exact for counts that are not
      negative and below 2^50, and are written over [Z] and [Q]: the
      statements on the bars, their labels and the horizontal axis keep to
      such counts;
    - the legend widths are computed in binary64, as the source does, with
      the kernel's primitive floats;
    - [int] of a string reads ASCII decimal literals;
    - the figure is what is handed to [savefig]; writing the file is not
      modelled. *)

From Stdlib Require Import ZArith QArith Bool List String Ascii Lia.
From Stdlib Require Import Sorting.Sorted Sorting.Permutation.
From Stdlib Require Import DecimalString DecimalPos DecimalZ.
From Stdlib Require Import Floats Uint63.
Import ListNotations.

Set Warnings "-inexact-float".

Open Scope string_scope.
Open Scope Z_scope.

(** ** The Python run time the program relies on *)

Module Py.

(** The exceptions the modelled code can raise. *)
Inductive exn : Type :=
| IndexError
| KeyError
| ValueError
| OverflowError
| OSError.

(** [IndexError] and [KeyError] derive from [LookupError]. *)
Definition is_LookupError (e : exn) : bool :=
  match e with
  | IndexError | KeyError => true
  | ValueError | OverflowError | OSError => false
  end.

Inductive result (A : Type) : Type :=
| Ok (a : A)
| Err (e : exn).
Arguments Ok {A} a.
Arguments Err {A} e.

Definition bind {A B : Type} (m : result A) (k : A -> result B) : result B :=
  match m with
  | Ok a => k a
  | Err e => Err e
  end.

Definition of_option {A : Type} (e : exn) (o : option A) : result A :=
  match o with
  | Some a => Ok a
  | None => Err e
  end.

(** [str(n)] for an integer. *)
Definition str (z : Z) : string := NilZero.string_of_int (Z.to_int z).

(** [s.replace(c, "")] for a one-character [c]. *)
Fixpoint remove_char (c : ascii) (s : string) : string :=
  match s with
  | EmptyString => EmptyString
  | String a s' =>
      if Ascii.eqb a c then remove_char c s' else String a (remove_char c s')
  end.

(** The white space that [int] skips around an ASCII literal: the space
    and the controls 9 to 13. *)
Definition is_space (a : ascii) : bool :=
  let n := N_of_ascii a in
  (N.eqb n 32 || (N.leb 9 n && N.leb n 13))%bool.

Fixpoint lstrip (s : string) : string :=
  match s with
  | String a s' => if is_space a then lstrip s' else s
  | EmptyString => EmptyString
  end.

(** Drops the white space at the end. *)
Fixpoint rstrip (s : string) : string :=
  match s with
  | EmptyString => EmptyString
  | String a s' =>
      match rstrip s' with
      | EmptyString => if is_space a then EmptyString else String a EmptyString
      | r => String a r
      end
  end.

Definition digit_of (a : ascii) : option Z :=
  let n := N_of_ascii a in
  if (N.leb 48 n && N.leb n 57)%bool then Some (Z.of_N n - 48) else None.

(** The digits of an integer literal: groups of digits separated by single
    underscores.  [after_digit] tells whether the previous character was a
    digit; the literal must end on one. *)
Fixpoint digits (acc : Z) (after_digit : bool) (s : string) : option Z :=
  match s with
  | EmptyString => if after_digit then Some acc else None
  | String a s' =>
      match digit_of a with
      | Some d => digits (10 * acc + d) true s'
      | None =>
          if (Ascii.eqb a "_" && after_digit)%bool
          then digits acc false s'
          else None
      end
  end.

(** The number of digits of a literal. *)
Fixpoint digit_count (s : string) : Z :=
  match s with
  | EmptyString => 0
  | String a s' =>
      match digit_of a with
      | Some _ => 1 + digit_count s'
      | None => digit_count s'
      end
  end.

(** [sys.int_max_str_digits], with its default value. *)
Definition int_max_str_digits : Z := 4300.

(** The literal once the sign is off: no more digits than the limit. *)
Definition literal (s : string) : option Z :=
  if int_max_str_digits <? digit_count s then None else digits 0 false s.

(** [int(s)] for a string of ASCII characters: white space around an
    optional sign and a decimal literal; anything else is a [ValueError].
    The strings are sequences of bytes: a decimal digit outside ASCII,
    which [int] would read, is refused here. *)
Definition int_of_str (s : string) : result Z :=
  match rstrip (lstrip s) with
  | String "-" s' => of_option ValueError (option_map Z.opp (literal s'))
  | String "+" s' => of_option ValueError (literal s')
  | s' => of_option ValueError (literal s')
  end.

(** [int(x)] for a float [x], read as a rational: truncation towards zero. *)
Definition int_of_Q (q : Q) : Z := Z.quot (Qnum q) (Zpos (Qden q)).

(** [float(n)] for an integer below 2^63 in absolute value. *)
Definition float_of_Z (z : Z) : float :=
  if z <? 0
  then PrimFloat.opp (PrimFloat.of_uint63 (Uint63.of_Z (- z)))
  else PrimFloat.of_uint63 (Uint63.of_Z z).

(** [d.get(k, default)] and [d[k]] on a dictionary written as a table. *)
Fixpoint lookup {K V : Type} (eqb : K -> K -> bool) (k : K)
         (d : list (K * V)) : option V :=
  match d with
  | [] => None
  | (k', v) :: d' => if eqb k k' then Some v else lookup eqb k d'
  end.

Definition get {K V : Type} (eqb : K -> K -> bool) (d : list (K * V))
           (k : K) (default : V) : V :=
  match lookup eqb k d with
  | Some v => v
  | None => default
  end.

Definition getitem {K V : Type} (eqb : K -> K -> bool) (d : list (K * V))
           (k : K) : result V :=
  of_option KeyError (lookup eqb k d).

End Py.

Import Py.

Notation "x <- m ;; k" := (Py.bind m (fun x => k))
  (at level 61, m at next level, right associativity).

(** ** Constants *)

Definition COLORS : list (string * string) :=
  [ ("background", "#151410");
    ("won", "#65c2a5");
    ("lost", "#CC444B");
    ("text", "white") ].

Definition color (k : string) : string := Py.get String.eqb COLORS k "".

Definition LEGEND_TOTAL_WIDTH : float := 6.0%float.

(** Turkish month names for date formatting. *)
Definition TURKISH_MONTHS : list (Z * string) :=
  [ (1, "Ocak"); (2, "Şubat"); (3, "Mart"); (4, "Nisan");
    (5, "Mayıs"); (6, "Haziran"); (7, "Temmuz"); (8, "Ağustos");
    (9, "Eylül"); (10, "Ekim"); (11, "Kasım"); (12, "Aralık") ].

(** Turkish tournament name translations. *)
Definition TURKISH_TOURNAMENTS : list (string * string) :=
  [ ("UEFA Champions League", "Şampiyonlar Ligi");
    ("Süper Lig", "Süper Lig");
    ("Turkish Cup", "Ziraat Türkiye Kupası");
    ("Turkish Super Cup", "Süper Kupa") ].

(** ** What the statistics provider returns *)

(** The fields of the match dictionary that [fetch_match_info] reads;
    [tournament_name] is [match_dict["tournament"]["name"]], and so on. *)
Record MatchDict : Type := {
  startTimestamp : Z;
  tournament_name : string;
  homeTeam_name : string;
  awayTeam_name : string;
  homeScore_current : Z;
  awayScore_current : Z
}.

(** A row of the player statistics frame, with the columns the builder
    reads.  A count the provider left out is NaN in the frame: [None]. *)
Record PlayerRow : Type := {
  name : string;
  position : string;
  substitute : bool;
  teamName : string;
  minutesPlayed : option Z;
  duelWon : option Z;
  duelLost : option Z
}.

Module TeamStat.
(** A row of the team statistics frame. *)
Record row : Type := {
  period : string;
  name : string;
  home : string;
  away : string;
  homeValue : Z;
  awayValue : Z
}.
End TeamStat.

(** The client: one response per match identifier. *)
Record Sofascore : Type := {
  get_match_dict : Z -> MatchDict;
  scrape_player_match_stats : Z -> list PlayerRow;
  scrape_team_match_stats : Z -> list TeamStat.row;
  get_team_names : Z -> string * string
}.

(** ** Match metadata *)

Record datetime : Type := { year : Z; month : Z; day : Z }.

(** The civil date of a day counted from 1970-01-01, in the proleptic
    Gregorian calendar. *)
Definition civil_from_days (days : Z) : datetime :=
  let z := days + 719468 in
  let era := z / 146097 in
  let doe := z mod 146097 in
  let yoe := (doe - doe / 1460 + doe / 36524 - doe / 146096) / 365 in
  let doy := doe - (365 * yoe + yoe / 4 - yoe / 100) in
  let mp := (5 * doy + 2) / 153 in
  let d := doy - (153 * mp + 2) / 5 + 1 in
  let m := if mp <? 10 then mp + 3 else mp - 9 in
  {| year := yoe + era * 400 + (if m <=? 2 then 1 else 0);
     month := m;
     day := d |}.

(** [datetime.fromtimestamp]: local time, [utcoffset] giving the offset of
    the local zone in seconds at an instant.  The local time must fit the
    platform's [time_t] (64 bits) or the call raises [OverflowError], its
    year must fit the [int] of the C structure or [localtime] fails with an
    [OSError], and a year outside 1..9999 is a [ValueError].  The date one
    day earlier, which is probed for a repeated hour, must not fall before
    the year 1 either; the offset is taken to be the same on that day. *)
Definition fromtimestamp (utcoffset : Z -> Z) (ts : Z) : result datetime :=
  let seconds := ts + utcoffset ts in
  let days := seconds / 86400 in
  let d := civil_from_days days in
  if negb ((- 2 ^ 63 <=? seconds) && (seconds <? 2 ^ 63))%bool
  then Err OverflowError
  else if negb ((- 2 ^ 31 <=? year d - 1900) && (year d - 1900 <? 2 ^ 31))%bool
  then Err OSError
  else if negb ((1 <=? year d) && (year d <=? 9999))%bool
  then Err ValueError
  else if year (civil_from_days (days - 1)) <? 1
  then Err ValueError
  else Ok d.

Record MatchInfo : Type := {
  home_team : string;
  away_team : string;
  home_score : Z;
  away_score : Z;
  tournament : string;
  season : string;
  date : string
}.

(** Fetch match metadata: teams, competition, date, score. *)
Definition fetch_match_info (utcoffset : Z -> Z) (ss : Sofascore)
           (match_id : Z) : result MatchInfo :=
  let match_dict := get_match_dict ss match_id in
  date <- fromtimestamp utcoffset (startTimestamp match_dict) ;;
  month_name <- Py.getitem Z.eqb TURKISH_MONTHS (month date) ;;
  let formatted_date :=
    (Py.str (day date) ++ " " ++ month_name ++ " " ++ Py.str (year date))%string in
  let tournament_en := tournament_name match_dict in
  let tournament := Py.get String.eqb TURKISH_TOURNAMENTS tournament_en tournament_en in
  Ok {| home_team := homeTeam_name match_dict;
        away_team := awayTeam_name match_dict;
        home_score := homeScore_current match_dict;
        away_score := awayScore_current match_dict;
        tournament := tournament;
        season := "2025/2026";
        date := formatted_date |}.

(** ** Player duels *)

(** A row once [fillna(0.0)] has run and the [duelTotal] column is there. *)
Record DuelRow : Type := {
  row_name : string;
  row_minutesPlayed : Z;
  row_duelWon : Z;
  row_duelLost : Z;
  row_duelTotal : Z
}.

(** The three boolean masks, applied one after the other. *)
Definition not_goalkeeper (r : PlayerRow) : bool := negb (position r =? "G")%string.
Definition is_starter (r : PlayerRow) : bool := Bool.eqb (substitute r) false.
Definition in_team (team_name : string) (r : PlayerRow) : bool :=
  (teamName r =? team_name)%string.

Definition fillna (o : option Z) : Z :=
  match o with
  | Some z => z
  | None => 0
  end.

(** The sum of two elements of [int64] columns: it wraps around. *)
Definition int64_add (a b : Z) : Z := (a + b + 2 ^ 63) mod 2 ^ 64 - 2 ^ 63.

(** [fillna] on the row, then [duelTotal = duelWon + duelLost].  The two
    columns are added in their type, [int64] when the provider leaves out no
    count.  A column with a missing count is [float64]; its sums are those
    of [int64] as long as the counts are below 2^52 in absolute value, the
    range to which the statements on the order keep. *)
Definition with_duelTotal (r : PlayerRow) : DuelRow :=
  let won := fillna (duelWon r) in
  let lost := fillna (duelLost r) in
  {| row_name := name r;
     row_minutesPlayed := fillna (minutesPlayed r);
     row_duelWon := won;
     row_duelLost := lost;
     row_duelTotal := int64_add won lost |}.

(** [frame.sort_values(by=..., ascending=...)] on several integer columns:
    the rows are compared column by column, each column in its own
    direction, and rows equal on every column keep the order they have in
    the frame (pandas sorts several keys with a stable lexicographic sort). *)
Section SortValues.
Context {A : Type}.

(** [lex_ahead keys x y]: [x] does not come after [y]; every key is a
    column with its [ascending] flag. *)
Fixpoint lex_ahead (keys : list ((A -> Z) * bool)) (x y : A) : bool :=
  match keys with
  | [] => true
  | (column, ascending) :: keys' =>
      if column x =? column y then lex_ahead keys' x y
      else if ascending then column x <? column y else column y <? column x
  end.

Variable ahead : A -> A -> bool.

(** [x] goes in front of the first row that it does not come after. *)
Fixpoint insert_row (x : A) (l : list A) : list A :=
  match l with
  | [] => [x]
  | y :: l' => if ahead x y then x :: l else y :: insert_row x l'
  end.

(** Stable insertion: every row is inserted in front of the rows that
    follow it in the frame. *)
Definition stable_sort (l : list A) : list A := fold_right insert_row [] l.
End SortValues.

Definition sort_values {A : Type} (frame : list A) (by_ : list (A -> Z))
           (ascending : list bool) : list A :=
  stable_sort (lex_ahead (combine by_ ascending)) frame.

(** The comparison of the call in [fetch_player_duels]:
    [by=["duelTotal", "duelWon"], ascending=[False, False]]. *)
Definition by_duelTotal_duelWon_desc : DuelRow -> DuelRow -> bool :=
  lex_ahead (combine [row_duelTotal; row_duelWon] [false; false]).

Record PlayerDuel : Type := {
  player : string;
  minutes : Z;
  won : Z;
  lost : Z
}.

Definition to_dict (r : DuelRow) : PlayerDuel :=
  {| player := row_name r;
     minutes := row_minutesPlayed r;
     won := row_duelWon r;
     lost := row_duelLost r |}.

(** The frame after the three filters. *)
Definition eligible_rows (ss : Sofascore) (match_id : Z) (team_name : string)
  : list PlayerRow :=
  let players := scrape_player_match_stats ss match_id in
  let players := filter not_goalkeeper players in
  let players := filter is_starter players in
  filter (in_team team_name) players.

(** The list [result] of the source as it stands before [result.reverse()]. *)
Definition ranked_duels (ss : Sofascore) (match_id : Z) (team_name : string)
  : list PlayerDuel :=
  let players := eligible_rows ss match_id team_name in
  let players := map with_duelTotal players in
  let players :=
    sort_values players [row_duelTotal; row_duelWon] [false; false] in
  map to_dict players.

(** Fetch and process player duel data for the specified team. *)
Definition fetch_player_duels (ss : Sofascore) (match_id : Z) (team_name : string)
  : list PlayerDuel :=
  rev (ranked_duels ss match_id team_name).

(** ** Team percentages *)

Record TeamStats : Type := {
  team_pct : Z;
  opponent_pct : Z;
  team_name : string;
  opponent_name : string;
  team_won : Z;
  opponent_won : Z;
  total : Z
}.

(** [frame.iloc[0]]. *)
Definition iloc0 {A : Type} (frame : list A) : result A :=
  Py.of_option IndexError (hd_error frame).

Definition named (n : string) (r : TeamStat.row) : bool :=
  (TeamStat.name r =? n)%string.

(** Fetch team-level duel percentages. *)
Definition fetch_team_percentages (ss : Sofascore) (match_id : Z)
           (team_name : string) : result TeamStats :=
  let game := scrape_team_match_stats ss match_id in
  let game := filter (fun r => (TeamStat.period r =? "ALL")%string) game in
  duel_row <- iloc0 (filter (named "Duels") game) ;;
  ground_row <- iloc0 (filter (named "Ground duels") game) ;;
  aerial_row <- iloc0 (filter (named "Aerial duels") game) ;;
  let teams := get_team_names ss match_id in
  let is_home := (fst teams =? team_name)%string in
  let opponent_name := if is_home then snd teams else fst teams in
  let team_pct_str :=
    if is_home then TeamStat.home duel_row else TeamStat.away duel_row in
  let opponent_pct_str :=
    if is_home then TeamStat.away duel_row else TeamStat.home duel_row in
  team_pct <- Py.int_of_str (Py.remove_char "%" team_pct_str) ;;
  opponent_pct <- Py.int_of_str (Py.remove_char "%" opponent_pct_str) ;;
  let team_won :=
    if is_home
    then TeamStat.homeValue ground_row + TeamStat.homeValue aerial_row
    else TeamStat.awayValue ground_row + TeamStat.awayValue aerial_row in
  let opponent_won :=
    if is_home
    then TeamStat.awayValue ground_row + TeamStat.awayValue aerial_row
    else TeamStat.homeValue ground_row + TeamStat.homeValue aerial_row in
  Ok {| team_pct := team_pct;
        opponent_pct := opponent_pct;
        team_name := team_name;
        opponent_name := opponent_name;
        team_won := team_won;
        opponent_won := opponent_won;
        total := team_won + opponent_won |}.

(** ** Visualisation *)

(** Axes placed on the figure: [left, bottom, width, height]. *)
Definition rect : Type := (Q * Q * Q * Q)%type.

Record Text : Type := {
  text_x : Q;
  text_y : Q;
  text_s : string;
  text_fontsize : Z
}.

(** One horizontal bar of a [barh] call. *)
Record Bar : Type := {
  bar_y : Z;
  bar_left : Z;
  bar_width : Z;
  bar_height : Q;
  bar_color : string
}.

Record TitleSection : Type := {
  title_rect : rect;
  title_main : Text;
  title_subtitle : Text
}.

Record ChartSection : Type := {
  chart_rect : rect;
  chart_yticks : list Z;
  chart_ylim : Q * Q;
  chart_xlim : Z * Z;
  bar1 : list Bar;
  bar2 : list Bar;
  bar1_labels : list string;
  bar2_labels : list string;
  chart_totals : list Text
}.

Record PlayersSection : Type := {
  players_rect : rect;
  players_xlim : Z * Z;
  players_ylim : Q * Q;
  players_texts : list Text
}.

Record LegendTitle : Type := {
  legend_title_rect : rect;
  legend_title_text : Text
}.

(** The legend bar is drawn from float64 widths. *)
Record LegendBar : Type := {
  lbar_left : float;
  lbar_width : float;
  lbar_color : string;
  lbar_label : string
}.

Record LegendSection : Type := {
  legend_rect : rect;
  lbar1 : LegendBar;
  lbar2 : LegendBar;
  legend_total_x : float;
  legend_total_s : string
}.

(** What [fig.savefig] writes out. *)
Record Figure : Type := {
  figsize : Z * Z;
  title_section : TitleSection;
  chart_section : ChartSection;
  players_section : PlayersSection;
  legend_title : LegendTitle;
  legend_section : LegendSection
}.

(** [np.max]: the maximum of an empty array is a [ValueError]. *)
Definition np_max (a : list Z) : result Z :=
  match a with
  | [] => Err ValueError
  | x :: a' => Ok (fold_left Z.max a' x)
  end.

(** [np.arange(n)]. *)
Definition arange (n : nat) : list Z := map Z.of_nat (seq 0 n).

Fixpoint enumerate_from {A : Type} (i : Z) (l : list A) : list (Z * A) :=
  match l with
  | [] => []
  | x :: l' => (i, x) :: enumerate_from (i + 1) l'
  end.

Definition enumerate {A : Type} (l : list A) : list (Z * A) := enumerate_from 0 l.

(** [str(int(v)) if v > 0 else ""], for an element [v] of a [float64] array
    that holds its count exactly. *)
Definition inside_label (v : Z) : string := if 0 <? v then Py.str v else "".

(** [f"%{pct} {name} - ({won})"]. *)
Definition legend_label (pct : Z) (team : string) (wins : Z) : string :=
  ("%" ++ Py.str pct ++ " " ++ team ++ " - (" ++ Py.str wins ++ ")")%string.

(** [(team_pct / 100) * LEGEND_TOTAL_WIDTH], the division being the true
    division of two integers. *)
Definition team_bar_width_of (pct : Z) : float :=
  (Py.float_of_Z pct / Py.float_of_Z 100 * LEGEND_TOTAL_WIDTH)%float.

Definition opponent_bar_width_of (pct : Z) : float :=
  (LEGEND_TOTAL_WIDTH - team_bar_width_of pct)%float.

(** Generate the duel visualization chart.  The result is the figure that is
    handed to [fig.savefig(output_path)]; an exception leaves nothing saved.
    Writing the file, which can fail on its own, and the line printed on the
    way are not part of the model.  The [float64] arrays are written with
    the integers they hold, exactly so for counts that are not negative and
    below 2^50. *)
Definition create_chart (players : list PlayerDuel) (match_info : MatchInfo)
           (team_stats : TeamStats) : result Figure :=
  (* title section *)
  let subtitle :=
    (tournament match_info ++ " - " ++ season match_info ++ " | "
     ++ home_team match_info ++ " " ++ Py.str (home_score match_info)
     ++ " - " ++ Py.str (away_score match_info) ++ " " ++ away_team match_info
     ++ " (" ++ date match_info ++ ")")%string in
  let title :=
    {| title_rect := (0, 83 # 100, 13 # 100, 6 # 100)%Q;
       title_main :=
         {| text_x := 2 # 100; text_y := 65 # 100;
            text_s := "İkili Mücadeleler"; text_fontsize := 20 |};
       title_subtitle :=
         {| text_x := 2 # 100; text_y := 28 # 100;
            text_s := subtitle; text_fontsize := 12 |} |} in
  (* data arrays *)
  let won_arr := map won players in
  let lost_arr := map lost players in
  let totals := map (fun wl => fst wl + snd wl) (combine won_arr lost_arr) in
  let y_pos := arange (List.length players) in
  let bar_height := (8 # 10)%Q in
  let top := (inject_Z (Z.of_nat (List.length players)) - (1 # 2))%Q in
  (* chart section *)
  m <- np_max totals ;;
  let xmax := Py.int_of_Q (inject_Z m + (3 # 2))%Q in
  let chart :=
    {| chart_rect := (33 # 100, 335 # 1000, 66 # 100, 5 # 10)%Q;
       chart_yticks := y_pos;
       chart_ylim := (- (1 # 2), top)%Q;
       chart_xlim := (0, xmax);
       bar1 :=
         map (fun yw =>
                {| bar_y := fst yw; bar_left := 0; bar_width := snd yw;
                   bar_height := bar_height; bar_color := color "won" |})
             (combine y_pos won_arr);
       bar2 :=
         map (fun ywl =>
                {| bar_y := fst ywl; bar_left := fst (snd ywl);
                   bar_width := snd (snd ywl);
                   bar_height := bar_height; bar_color := color "lost" |})
             (combine y_pos (combine won_arr lost_arr));
       bar1_labels := map inside_label won_arr;
       bar2_labels := map inside_label lost_arr;
       chart_totals :=
         map (fun it =>
                {| text_x := (inject_Z (snd it) + (1 # 4))%Q;
                   text_y := inject_Z (nth (Z.to_nat (fst it)) y_pos 0);
                   text_s := Py.str (snd it); text_fontsize := 12 |})
             (enumerate totals) |} in
  (* players section *)
  let names :=
    {| players_rect := (0, 335 # 1000, 2 # 10, 5 # 10)%Q;
       players_xlim := (0, 1);
       players_ylim := (- (1 # 2), top)%Q;
       players_texts :=
         flat_map
           (fun ip =>
              let y := inject_Z (nth (Z.to_nat (fst ip)) y_pos 0) in
              [ {| text_x := 2 # 100; text_y := y;
                   text_s := player (snd ip); text_fontsize := 11 |};
                {| text_x := 2 # 100; text_y := (y - (3 # 10))%Q;
                   text_s := (Py.str (minutes (snd ip)) ++ " dakika")%string;
                   text_fontsize := 9 |} ])
           (enumerate players) |} in
  (* legend title *)
  let ltitle :=
    {| legend_title_rect := (33 # 100, 315 # 1000, 74 # 100, 3 # 100)%Q;
       legend_title_text :=
         {| text_x := 0; text_y := 55 # 100;
            text_s := "İkili Mücadele Sayıları ve Kazanım Oranları";
            text_fontsize := 12 |} |} in
  (* legend section *)
  let team_bar_width := team_bar_width_of (team_pct team_stats) in
  let opponent_bar_width := opponent_bar_width_of (team_pct team_stats) in
  let legend :=
    {| legend_rect := (33 # 100, 28 # 100, 78 # 100, 4 # 100)%Q;
       lbar1 :=
         {| lbar_left := 0%float; lbar_width := team_bar_width;
            lbar_color := color "won";
            lbar_label :=
              legend_label (team_pct team_stats) (team_name team_stats)
                           (team_won team_stats) |};
       lbar2 :=
         {| lbar_left := team_bar_width; lbar_width := opponent_bar_width;
            lbar_color := color "lost";
            lbar_label :=
              legend_label (opponent_pct team_stats) (opponent_name team_stats)
                           (opponent_won team_stats) |};
       legend_total_x := (LEGEND_TOTAL_WIDTH + 0.1)%float;
       legend_total_s := Py.str (total team_stats) |} in
  Ok {| figsize := (8, 12);
        title_section := title;
        chart_section := chart;
        players_section := names;
        legend_title := ltitle;
        legend_section := legend |}.

(** ** The whole run *)

Definition main (utcoffset : Z -> Z) (ss : Sofascore) (match_id : Z)
           (team : string) : result Figure :=
  match_info <- fetch_match_info utcoffset ss match_id ;;
  let players := fetch_player_duels ss match_id team in
  team_stats <- fetch_team_percentages ss match_id team ;;
  create_chart players match_info team_stats.

(** ** A sample match *)

Module Sample.

Definition row (n pos : string) (sub : bool) (team : string)
           (mins w l : option Z) : PlayerRow :=
  {| name := n; position := pos; substitute := sub; teamName := team;
     minutesPlayed := mins; duelWon := w; duelLost := l |}.

Definition players : list PlayerRow :=
  [ row "Muslera" "G" false "Galatasaray" (Some 90) None None;
    row "Torreira" "M" false "Galatasaray" (Some 90) (Some 5) (Some 3);
    row "Djiku" "D" false "Fenerbahçe" (Some 90) (Some 6) (Some 2);
    row "Sara" "M" false "Galatasaray" (Some 71) (Some 4) (Some 4);
    row "Icardi" "F" true "Galatasaray" (Some 19) (Some 1) (Some 2);
    row "Sanchez" "D" false "Galatasaray" (Some 90) (Some 3) None;
    row "Yunus" "M" false "Galatasaray" (Some 64) (Some 5) (Some 3);
    row "Osimhen" "F" false "Galatasaray" (Some 90) None (Some 3) ].

Definition stat (n h a : string) (hv av : Z) : TeamStat.row :=
  {| TeamStat.period := "ALL"; TeamStat.name := n;
     TeamStat.home := h; TeamStat.away := a;
     TeamStat.homeValue := hv; TeamStat.awayValue := av |}.

Definition team_stats : list TeamStat.row :=
  [ {| TeamStat.period := "1ST"; TeamStat.name := "Duels";
       TeamStat.home := "48%"; TeamStat.away := "52%";
       TeamStat.homeValue := 48; TeamStat.awayValue := 52 |};
    stat "Ball possession" "55%" "45%" 55 45;
    stat "Duels" "51%" "49%" 51 49;
    stat "Ground duels" "40/78 (51%)" "38/78 (49%)" 40 38;
    stat "Aerial duels" "12/25 (48%)" "13/25 (52%)" 12 13 ].

Definition match_dict : MatchDict :=
  {| startTimestamp := 1764522000;
     tournament_name := "Turkish Cup";
     homeTeam_name := "Galatasaray";
     awayTeam_name := "Fenerbahçe";
     homeScore_current := 2;
     awayScore_current := 1 |}.

Definition ss : Sofascore :=
  {| get_match_dict := fun _ => match_dict;
     scrape_player_match_stats := fun _ => players;
     scrape_team_match_stats := fun _ => team_stats;
     get_team_names := fun _ => ("Galatasaray", "Fenerbahçe") |}.

(** Istanbul: three hours ahead of UTC all year. *)
Definition utcoffset (ts : Z) : Z := 10800.

Definition match_id : Z := 14566935.

(** The summaries of that match, and a two-player ranking as the builder
    returns it: the lower total first. *)
Definition match_info : MatchInfo :=
  {| home_team := "Galatasaray"; away_team := "Fenerbahçe";
     home_score := 2; away_score := 1;
     tournament := "Ziraat Türkiye Kupası";
     season := "2025/2026"; date := "30 Kasım 2025" |}.

Definition stats : TeamStats :=
  {| team_pct := 51; opponent_pct := 49;
     team_name := "Galatasaray"; opponent_name := "Fenerbahçe";
     team_won := 52; opponent_won := 51; total := 103 |}.

Definition duels : list PlayerDuel :=
  [ {| player := "B"; minutes := 90; won := 1; lost := 2 |};
    {| player := "A"; minutes := 90; won := 3; lost := 1 |} ].

End Sample.

(** ** A frame with a count near the end of [int64] *)

Module Overflow.

(** Two starters of the same team, no count left out: one with one duel won
    and one lost, one with 2^62 won and 2^62 lost. *)
Definition players : list PlayerRow :=
  [ Sample.row "Small" "M" false "Galatasaray" (Some 90) (Some 1) (Some 1);
    Sample.row "Huge" "F" false "Galatasaray" (Some 90) (Some (2 ^ 62)) (Some (2 ^ 62)) ].

Definition ss : Sofascore :=
  {| get_match_dict := fun _ => Sample.match_dict;
     scrape_player_match_stats := fun _ => players;
     scrape_team_match_stats := fun _ => Sample.team_stats;
     get_team_names := fun _ => ("Galatasaray", "Fenerbahçe") |}.

End Overflow.

(** ** Vocabulary of the statements *)

(** Total duels of an output record. *)
Definition duel_total (p : PlayerDuel) : Z := won p + lost p.

(** Records with total [t] and [w] duels won. *)
Definition tied (t w : Z) (p : PlayerDuel) : bool :=
  ((duel_total p =? t) && (won p =? w))%bool.

(** The eligibility predicate in the words of the specification. *)
Definition eligible (team : string) (r : PlayerRow) : Prop :=
  position r <> "G" /\ substitute r = false /\ teamName r = team.

(** The same, as the three masks of the source taken together. *)
Definition eligibleb (team : string) (r : PlayerRow) : bool :=
  (not_goalkeeper r && is_starter r && in_team team r)%bool.

(** The output record of a raw row. *)
Definition record_of (r : PlayerRow) : PlayerDuel := to_dict (with_duelTotal r).

(** The [duelTotal] column is the sum of the two others. *)
Definition total_is_sum (r : DuelRow) : Prop :=
  row_duelTotal r = row_duelWon r + row_duelLost r.

(** The check of one percentage, in binary64: the two widths add up to the
    total width under the comparison [==] of floats. *)
Definition widths_add_up (pct : Z) : bool :=
  PrimFloat.eqb (team_bar_width_of pct + opponent_bar_width_of pct)%float
                LEGEND_TOTAL_WIDTH.

(** The [duelTotal] column as pandas computes it on [int64] columns. *)
Definition total_is_int64_sum (r : DuelRow) : Prop :=
  row_duelTotal r = int64_add (row_duelWon r) (row_duelLost r).

(** Counts, a missing one being 0, for which neither an [int64] nor a
    [float64] column loses anything when the two are added. *)
Definition counts_in_range (r : PlayerRow) : Prop :=
  - 2 ^ 52 < fillna (duelWon r) < 2 ^ 52
  /\ - 2 ^ 52 < fillna (duelLost r) < 2 ^ 52.

(** Counts that the [float64] arrays of the chart hold exactly, with their
    sums and the paddings added to them. *)
Definition exact_counts (p : PlayerDuel) : Prop :=
  0 <= won p < 2 ^ 50 /\ 0 <= lost p < 2 ^ 50.

(** The same on a row of the provider. *)
Definition small_row (r : PlayerRow) : Prop :=
  0 <= fillna (duelWon r) < 2 ^ 50 /\ 0 <= fillna (duelLost r) < 2 ^ 50.

(** The order of the ranking as the specification words it, for every
    frame: sorted on the total, then on the duels won, both descending, and
    stable. *)
Definition ranking_sorted_on_every_frame : Prop :=
  forall (ss : Sofascore) (match_id : Z) (team : string),
    let result := ranked_duels ss match_id team in
    let source := map to_dict (map with_duelTotal (eligible_rows ss match_id team)) in
    (forall (i : nat) (a b : PlayerDuel),
        nth_error result i = Some a -> nth_error result (S i) = Some b ->
        duel_total a >= duel_total b
        /\ (duel_total a = duel_total b -> won a >= won b))
    /\ (forall t w : Z, filter (tied t w) result = filter (tied t w) source).

(** The reversal as the specification words it, for every frame: the first
    record returned is the lowest of the ranking, the last the highest, with
    the highest total. *)
Definition reversal_ends_on_every_frame : Prop :=
  forall (ss : Sofascore) (match_id : Z) (team : string),
    let sorted := ranked_duels ss match_id team in
    let returned := fetch_player_duels ss match_id team in
    let n := List.length sorted in
    returned = rev sorted
    /\ (forall i : nat, (i < n)%nat ->
          nth_error returned i = nth_error sorted (n - 1 - i))
    /\ (forall low p : PlayerDuel,
           nth_error returned 0 = Some low -> In p returned ->
           nth_error sorted (n - 1) = Some low /\ duel_total low <= duel_total p)
    /\ (forall top p : PlayerDuel,
           nth_error returned (n - 1) = Some top -> In p returned ->
           nth_error sorted 0 = Some top /\ duel_total p <= duel_total top).

(** [m] is the greatest total among [players]. *)
Definition is_max_total (players : list PlayerDuel) (m : Z) : Prop :=
  (exists p : PlayerDuel, In p players /\ duel_total p = m)
  /\ (forall p : PlayerDuel, In p players -> duel_total p <= m).

(** The upper bound of the chart's horizontal axis as the specification
    words it: the greatest total plus 1.5. *)
Definition xlim_is_max_plus_padding : Prop :=
  forall (players : list PlayerDuel) (match_info : MatchInfo)
         (team_stats : TeamStats) (fig : Figure) (m : Z),
    players <> [] -> is_max_total players m ->
    create_chart players match_info team_stats = Ok fig ->
    (inject_Z (snd (chart_xlim (chart_section fig))) == inject_Z m + (3 # 2))%Q.

(** The legend label as the specification words it: the number, then the
    percent sign. *)
Definition spec_legend_label (pct : Z) (team : string) (wins : Z) : string :=
  (Py.str pct ++ "% " ++ team ++ " - (" ++ Py.str wins ++ ")")%string.

Definition legend_labels_as_specified : Prop :=
  forall (players : list PlayerDuel) (match_info : MatchInfo)
         (team_stats : TeamStats) (fig : Figure),
    create_chart players match_info team_stats = Ok fig ->
    lbar_label (lbar1 (legend_section fig))
    = spec_legend_label (team_pct team_stats) (team_name team_stats)
                        (team_won team_stats)
    /\ lbar_label (lbar2 (legend_section fig))
       = spec_legend_label (opponent_pct team_stats) (opponent_name team_stats)
                           (opponent_won team_stats).

(** A requested team that is neither the home nor the away team makes the
    team summary fail with a [LookupError], as the specification words it. *)
Definition unknown_team_is_LookupError : Prop :=
  forall (ss : Sofascore) (match_id : Z) (team : string),
    team <> fst (get_team_names ss match_id) ->
    team <> snd (get_team_names ss match_id) ->
    exists e : Py.exn,
      fetch_team_percentages ss match_id team = Err e
      /\ Py.is_LookupError e = true.

(** ** The run with what it prints *)

(** [main] together with the lines it has written to standard output when
    it returns or raises; [create_chart] prints the tournament line before
    it touches the players.  [team] and [output] are the parsed arguments. *)
Definition main_stdout (utcoffset : Z -> Z) (ss : Sofascore) (match_id : Z)
           (team output : string) : list string * result Figure :=
  let out := [("Fetching data for match " ++ Py.str match_id ++ "...")%string] in
  match fetch_match_info utcoffset ss match_id with
  | Err e => (out, Err e)
  | Ok match_info =>
      let out :=
        (out ++ [("Match: " ++ home_team match_info ++ " vs "
                  ++ away_team match_info)%string])%list in
      let players := fetch_player_duels ss match_id team in
      let out :=
        (out ++ [("Found " ++ Py.str (Z.of_nat (List.length players))
                  ++ " starting players for " ++ team)%string])%list in
      match fetch_team_percentages ss match_id team with
      | Err e => (out, Err e)
      | Ok team_stats =>
          let out :=
            (out ++ [("Team duel percentage: " ++ Py.str (team_pct team_stats)
                      ++ "%")%string])%list in
          let out :=
            (out ++ [("Tournament: " ++ tournament match_info)%string])%list in
          match create_chart players match_info team_stats with
          | Err e => (out, Err e)
          | Ok fig => ((out ++ [("Chart saved to " ++ output)%string])%list, Ok fig)
          end
      end
  end.

(** ** Further vocabulary *)

(** [TURKISH_TOURNAMENTS.get(name, name)]. *)
Definition translate_tournament (name_en : string) : string :=
  Py.get String.eqb TURKISH_TOURNAMENTS name_en name_en.



(** The same client with another frame of team rows. *)
Definition with_team_stats (ss : Sofascore) (frame : Z -> list TeamStat.row)
  : Sofascore :=
  {| get_match_dict := get_match_dict ss;
     scrape_player_match_stats := scrape_player_match_stats ss;
     scrape_team_match_stats := frame;
     get_team_names := get_team_names ss |}.

(** A count that is missing or not negative. *)
Definition count_ok (o : option Z) : Prop :=
  match o with
  | Some z => 0 <= z
  | None => True
  end.

(** The rows of the whole match among the team rows, and the first row
    with a given name among them. *)
Definition whole_match (ss : Sofascore) (match_id : Z) : list TeamStat.row :=
  filter (fun r => (TeamStat.period r =? "ALL")%string)
         (scrape_team_match_stats ss match_id).

Definition stat_row (ss : Sofascore) (match_id : Z) (n : string)
  : option TeamStat.row :=
  hd_error (filter (named n) (whole_match ss match_id)).

(** A team summary seen from the other side. *)
Definition mirrored (s : TeamStats) (team : string) : TeamStats :=
  {| team_pct := opponent_pct s;
     opponent_pct := team_pct s;
     team_name := team;
     opponent_name := team_name s;
     team_won := opponent_won s;
     opponent_won := team_won s;
     total := opponent_won s + team_won s |}.

(** The check of one percentage, in binary64: both widths lie between 0 and
    the total width. *)
Definition widths_in_range (pct : Z) : bool :=
  (PrimFloat.leb 0%float (team_bar_width_of pct)
   && PrimFloat.leb (team_bar_width_of pct) LEGEND_TOTAL_WIDTH
   && PrimFloat.leb 0%float (opponent_bar_width_of pct)
   && PrimFloat.leb (opponent_bar_width_of pct) LEGEND_TOTAL_WIDTH)%bool.

(** * Properties *)

(** ** The stable sort *)

Section SortValuesFacts.
Context {A : Type}.
Variable ahead : A -> A -> bool.

Lemma insert_row_perm (x : A) (l : list A) :
  Permutation (insert_row ahead x l) (x :: l).
Proof.
  induction l as [|y l IH]; simpl.
  - reflexivity.
  - destruct (ahead x y).
    + reflexivity.
    + rewrite IH. apply perm_swap.
Qed.

Lemma stable_sort_perm (l : list A) : Permutation (stable_sort ahead l) l.
Proof.
  induction l as [|x l IH]; simpl.
  - reflexivity.
  - rewrite insert_row_perm. now constructor.
Qed.

(** Rows that [ahead] cannot tell apart keep their order: inserting
    leaves every such class as it was, with the new row in front. *)
Lemma insert_row_filter (P : A -> bool) (x : A) (l : list A) :
  (forall a b, P a = true -> P b = true -> ahead a b = true) ->
  filter P (insert_row ahead x l) = filter P (x :: l).
Proof.
  intros Hclass. induction l as [|y l IH].
  - reflexivity.
  - cbn [insert_row]. destruct (ahead x y) eqn:Hxy.
    + reflexivity.
    + cbn [filter] in *. destruct (P y) eqn:Hy.
      * destruct (P x) eqn:Hx.
        -- rewrite (Hclass x y Hx Hy) in Hxy. discriminate.
        -- now rewrite IH.
      * exact IH.
Qed.

Lemma stable_sort_filter (P : A -> bool) (l : list A) :
  (forall a b, P a = true -> P b = true -> ahead a b = true) ->
  filter P (stable_sort ahead l) = filter P l.
Proof.
  intros Hclass. induction l as [|x l IH].
  - reflexivity.
  - cbn [stable_sort fold_right]. fold (stable_sort ahead l).
    rewrite (insert_row_filter P x _ Hclass). cbn [filter].
    now rewrite IH.
Qed.

(** The same when [ahead] cannot tell the rows of a class apart only among
    rows that keep an invariant, as those of the frame do. *)
Lemma insert_row_filter_on (inv : A -> Prop) (P : A -> bool) (x : A) (l : list A) :
  (forall a b, inv a -> inv b -> P a = true -> P b = true -> ahead a b = true) ->
  inv x -> Forall inv l ->
  filter P (insert_row ahead x l) = filter P (x :: l).
Proof.
  intros Hclass Hx Hl. induction Hl as [|y l Hy Hl IH].
  - reflexivity.
  - cbn [insert_row]. destruct (ahead x y) eqn:Hxy.
    + reflexivity.
    + cbn [filter] in *. destruct (P y) eqn:Py.
      * destruct (P x) eqn:Px.
        -- rewrite (Hclass x y Hx Hy Px Py) in Hxy. discriminate.
        -- now rewrite IH.
      * exact IH.
Qed.

Lemma stable_sort_filter_on (inv : A -> Prop) (P : A -> bool) (l : list A) :
  (forall a b, inv a -> inv b -> P a = true -> P b = true -> ahead a b = true) ->
  Forall inv l ->
  filter P (stable_sort ahead l) = filter P l.
Proof.
  intros Hclass Hl. induction Hl as [|x l Hx Hl IH].
  - reflexivity.
  - cbn [stable_sort fold_right]. fold (stable_sort ahead l).
    rewrite (insert_row_filter_on inv P x _ Hclass Hx).
    + cbn [filter]. now rewrite IH.
    + apply Forall_forall. intros r Hr. rewrite Forall_forall in Hl.
      apply Hl. exact (Permutation_in _ (stable_sort_perm l) Hr).
Qed.

Hypothesis ahead_total : forall a b, ahead a b = false -> ahead b a = true.

Let R (a b : A) : Prop := ahead a b = true.

Lemma insert_row_sorted (x : A) (l : list A) :
  Sorted R l -> Sorted R (insert_row ahead x l).
Proof.
  induction 1 as [|y l Hs IH Hhd]; simpl.
  - repeat constructor.
  - destruct (ahead x y) eqn:Hxy.
    + constructor; [now constructor | now constructor].
    + constructor; [exact IH |].
      destruct l as [|z l]; simpl.
      * constructor. now apply ahead_total.
      * destruct (ahead x z).
        -- constructor. now apply ahead_total.
        -- constructor. now inversion Hhd.
Qed.

Lemma stable_sort_sorted (l : list A) : Sorted R (stable_sort ahead l).
Proof.
  induction l as [|x l IH]; simpl.
  - constructor.
  - now apply insert_row_sorted.
Qed.

Lemma sorted_adjacent (l : list A) (i : nat) (a b : A) :
  Sorted R l -> nth_error l i = Some a -> nth_error l (S i) = Some b ->
  ahead a b = true.
Proof.
  intros Hs. revert i. induction Hs as [|y l Hs IH Hhd]; intros i Ha Hb.
  - destruct i; discriminate.
  - destruct i as [|i].
    + simpl in Ha. injection Ha as ->.
      destruct l as [|z l]; [discriminate |].
      simpl in Hb. injection Hb as ->. now inversion Hhd.
    + exact (IH i Ha Hb).
Qed.
End SortValuesFacts.

(** ** The dataset builder *)

(** The comparison unfolded: a greater total first, and among equal totals
    at least as many duels won. *)
Lemma by_duelTotal_duelWon_desc_unfold (a b : DuelRow) :
  by_duelTotal_duelWon_desc a b
  = ((row_duelTotal b <? row_duelTotal a)
     || ((row_duelTotal a =? row_duelTotal b) && (row_duelWon b <=? row_duelWon a)))%bool.
Proof.
  unfold by_duelTotal_duelWon_desc. cbn [combine lex_ahead].
  destruct (Z.eqb_spec (row_duelTotal a) (row_duelTotal b)) as [Et | Et].
  - rewrite Et, Z.ltb_irrefl. cbn [orb andb].
    destruct (Z.eqb_spec (row_duelWon a) (row_duelWon b)) as [Ew | Ew].
    + rewrite Ew. symmetry. apply Z.leb_refl.
    + destruct (Z.ltb_spec (row_duelWon b) (row_duelWon a));
        symmetry; [apply Z.leb_le | apply Z.leb_gt]; lia.
  - cbn [andb]. now rewrite orb_false_r.
Qed.

Lemma sort_values_duels (frame : list DuelRow) :
  sort_values frame [row_duelTotal; row_duelWon] [false; false]
  = stable_sort by_duelTotal_duelWon_desc frame.
Proof. reflexivity. Qed.

Lemma by_duelTotal_duelWon_desc_total (a b : DuelRow) :
  by_duelTotal_duelWon_desc a b = false -> by_duelTotal_duelWon_desc b a = true.
Proof.
  rewrite !by_duelTotal_duelWon_desc_unfold.
  rewrite orb_false_iff, andb_false_iff, orb_true_iff, andb_true_iff.
  rewrite !Z.ltb_ge, !Z.ltb_lt, !Z.eqb_eq, !Z.eqb_neq, Z.leb_gt, Z.leb_le. lia.
Qed.

Lemma by_duelTotal_duelWon_desc_spec (a b : DuelRow) :
  by_duelTotal_duelWon_desc a b = true ->
  row_duelTotal b <= row_duelTotal a
  /\ (row_duelTotal a = row_duelTotal b -> row_duelWon b <= row_duelWon a).
Proof.
  rewrite by_duelTotal_duelWon_desc_unfold.
  rewrite orb_true_iff, andb_true_iff, Z.ltb_lt, Z.eqb_eq, Z.leb_le. lia.
Qed.

Lemma int64_add_exact (a b : Z) :
  - 2 ^ 52 < a < 2 ^ 52 -> - 2 ^ 52 < b < 2 ^ 52 -> int64_add a b = a + b.
Proof.
  intros Ha Hb. unfold int64_add. rewrite Z.mod_small; lia.
Qed.

(** With counts in range every row of the sorted frame has for total the
    sum of its two counts. *)
Lemma sorted_frame_total_is_sum (rows : list PlayerRow) :
  Forall counts_in_range rows ->
  Forall total_is_sum
         (stable_sort by_duelTotal_duelWon_desc (map with_duelTotal rows)).
Proof.
  intros Hrange. rewrite Forall_forall in Hrange.
  apply Forall_forall. intros r Hr.
  apply (Permutation_in _ (stable_sort_perm _ _)) in Hr.
  apply in_map_iff in Hr as [raw [<- Hraw]].
  destruct (Hrange raw Hraw) as [Hw Hl].
  unfold total_is_sum, with_duelTotal.
  cbn [row_duelTotal row_duelWon row_duelLost]. now apply int64_add_exact.
Qed.

Lemma frame_total_is_int64_sum (rows : list PlayerRow) :
  Forall total_is_int64_sum (map with_duelTotal rows).
Proof.
  apply Forall_forall. intros r Hr.
  apply in_map_iff in Hr as [raw [<- _]]. reflexivity.
Qed.

Lemma duel_total_to_dict (r : DuelRow) :
  total_is_sum r -> duel_total (to_dict r) = row_duelTotal r.
Proof. unfold total_is_sum, duel_total. simpl. lia. Qed.

Lemma filter_to_dict (P : PlayerDuel -> bool) (l : list DuelRow) :
  filter P (map to_dict l) = map to_dict (filter (fun r => P (to_dict r)) l).
Proof.
  induction l as [|r l IH]; simpl.
  - reflexivity.
  - destruct (P (to_dict r)); simpl; now rewrite IH.
Qed.

(** Adjacent records of the ranking, in the order of the sort. *)
Lemma ranked_duels_adjacent (ss : Sofascore) (match_id : Z) (team : string)
      (i : nat) (a b : PlayerDuel) :
  Forall counts_in_range (eligible_rows ss match_id team) ->
  nth_error (ranked_duels ss match_id team) i = Some a ->
  nth_error (ranked_duels ss match_id team) (S i) = Some b ->
  duel_total b <= duel_total a /\ (duel_total a = duel_total b -> won b <= won a).
Proof.
  intros Hrange. unfold ranked_duels. rewrite sort_values_duels.
  set (frame := map with_duelTotal (eligible_rows ss match_id team)).
  pose proof (sorted_frame_total_is_sum _ Hrange) as Hsum.
  fold frame in Hsum. rewrite Forall_forall in Hsum.
  rewrite !nth_error_map. intros Ha Hb.
  destruct (nth_error (stable_sort _ frame) i) as [ra|] eqn:Era; [|discriminate].
  destruct (nth_error (stable_sort _ frame) (S i)) as [rb|] eqn:Erb; [|discriminate].
  injection Ha as <-. injection Hb as <-.
  pose proof (sorted_adjacent _ _ _ _ _
                (stable_sort_sorted _ by_duelTotal_duelWon_desc_total frame)
                Era Erb) as Hab.
  apply by_duelTotal_duelWon_desc_spec in Hab.
  rewrite (duel_total_to_dict ra (Hsum _ (nth_error_In _ _ Era))).
  rewrite (duel_total_to_dict rb (Hsum _ (nth_error_In _ _ Erb))).
  exact Hab.
Qed.

(** The records tied on the total and on the duels won keep the order of
    the frame, whatever the counts. *)
Lemma ranked_duels_stable (ss : Sofascore) (match_id : Z) (team : string) (t w : Z) :
  filter (tied t w) (ranked_duels ss match_id team)
  = filter (tied t w)
           (map to_dict (map with_duelTotal (eligible_rows ss match_id team))).
Proof.
  unfold ranked_duels. rewrite sort_values_duels, !filter_to_dict. f_equal.
  apply (stable_sort_filter_on _ total_is_int64_sum);
    [| apply frame_total_is_int64_sum].
  intros a b Ia Ib Pa Pb. unfold tied, duel_total in Pa, Pb.
  cbn [to_dict won lost] in Pa, Pb.
  apply andb_true_iff in Pa as [Ta Wa]. apply andb_true_iff in Pb as [Tb Wb].
  apply Z.eqb_eq in Ta, Wa, Tb, Wb.
  rewrite by_duelTotal_duelWon_desc_unfold. apply orb_true_iff. right.
  apply andb_true_iff. split; [apply Z.eqb_eq | apply Z.leb_le; lia].
  unfold total_is_int64_sum in Ia, Ib. rewrite Ia, Ib. f_equal; lia.
Qed.

(** C1, the statement of the specification fails: with one duel won and one
    lost for one player and 2^62 won and 2^62 lost for another, the total of
    the second wraps around to a negative number and the first is ranked
    before it. *)
Lemma ranking_sorted_on_every_frame_fails : ~ ranking_sorted_on_every_frame.
Proof.
  intros Hclaim.
  destruct (Hclaim Overflow.ss Sample.match_id "Galatasaray") as [Hsorted _].
  specialize (Hsorted 0%nat
                {| player := "Small"; minutes := 90; won := 1; lost := 1 |}
                {| player := "Huge"; minutes := 90; won := 2 ^ 62; lost := 2 ^ 62 |}
                eq_refl eq_refl).
  destruct Hsorted as [H _]. vm_compute in H. now apply H.
Qed.

(** C1, amended. For a frame whose eligible rows have counts below 2^52 in
    absolute value, the records before the final reversal are in descending
    order of total duels, ties broken by duels won in descending order: for
    adjacent records the total does not increase and, where the totals are
    equal, the duels won do not increase.  The sort is stable on every
    frame: the records that share a total and a number of duels won stand in
    the order of the source rows. *)
Theorem ranked_duels_sorted_stable (ss : Sofascore) (match_id : Z) (team : string) :
  let result := ranked_duels ss match_id team in
  let source := map to_dict (map with_duelTotal (eligible_rows ss match_id team)) in
  (Forall counts_in_range (eligible_rows ss match_id team) ->
   forall (i : nat) (a b : PlayerDuel),
     nth_error result i = Some a -> nth_error result (S i) = Some b ->
     duel_total a >= duel_total b
     /\ (duel_total a = duel_total b -> won a >= won b))
  /\ (forall t w : Z, filter (tied t w) result = filter (tied t w) source).
Proof.
  intros result source. subst result source. split.
  - intros Hrange i a b Ha Hb.
    destruct (ranked_duels_adjacent ss match_id team i a b Hrange Ha Hb) as [H1 H2].
    split; [lia |]. intros E. specialize (H2 E). lia.
  - intros t w. apply ranked_duels_stable.
Qed.

Lemma ranked_duels_sorted_stable_witness :
  duel_total {| player := "Yunus"; minutes := 64; won := 5; lost := 3 |}
  >= duel_total {| player := "Sara"; minutes := 71; won := 4; lost := 4 |}
  /\ filter (tied 8 5) (ranked_duels Sample.ss Sample.match_id "Galatasaray")
     = [ {| player := "Torreira"; minutes := 90; won := 5; lost := 3 |};
         {| player := "Yunus"; minutes := 64; won := 5; lost := 3 |} ].
Proof.
  destruct (ranked_duels_sorted_stable Sample.ss Sample.match_id "Galatasaray")
    as [Hsorted Hstable].
  split.
  - refine (proj1 (Hsorted _ 1%nat _ _ eq_refl eq_refl)).
    repeat constructor; simpl; lia.
  - rewrite Hstable. reflexivity.
Defined.

Lemma by_duelTotal_duelWon_desc_trans (a b c : DuelRow) :
  by_duelTotal_duelWon_desc a b = true -> by_duelTotal_duelWon_desc b c = true ->
  by_duelTotal_duelWon_desc a c = true.
Proof.
  rewrite !by_duelTotal_duelWon_desc_unfold.
  rewrite !orb_true_iff, !andb_true_iff, !Z.ltb_lt, !Z.eqb_eq, !Z.leb_le. lia.
Qed.

(** The first row of the sorted frame has the greatest total. *)
Lemma sorted_frame_head_max (frame : list DuelRow) (top r : DuelRow) :
  hd_error (stable_sort by_duelTotal_duelWon_desc frame) = Some top ->
  In r (stable_sort by_duelTotal_duelWon_desc frame) ->
  row_duelTotal r <= row_duelTotal top.
Proof.
  intros Htop Hr.
  pose proof (stable_sort_sorted _ by_duelTotal_duelWon_desc_total frame) as Hs.
  apply Sorted_StronglySorted in Hs.
  2:{ intros a b c. apply by_duelTotal_duelWon_desc_trans. }
  destruct (stable_sort by_duelTotal_duelWon_desc frame) as [|x l]; [discriminate |].
  injection Htop as ->. inversion Hs as [|? ? _ Hall]; subst.
  destruct Hr as [<- | Hr]; [lia |].
  rewrite Forall_forall in Hall.
  now apply by_duelTotal_duelWon_desc_spec, Hall.
Qed.

(** The last row of the sorted frame has the least total. *)
Lemma sorted_frame_last_min (frame : list DuelRow) (low r : DuelRow) :
  hd_error (rev (stable_sort by_duelTotal_duelWon_desc frame)) = Some low ->
  In r (stable_sort by_duelTotal_duelWon_desc frame) ->
  row_duelTotal low <= row_duelTotal r.
Proof.
  intros Hlow Hr.
  pose proof (stable_sort_sorted _ by_duelTotal_duelWon_desc_total frame) as Hs.
  apply Sorted_StronglySorted in Hs.
  2:{ intros a b c. apply by_duelTotal_duelWon_desc_trans. }
  induction Hs as [|x l Hs IH Hall].
  - destruct Hr.
  - simpl in Hlow. destruct l as [|y l].
    + simpl in Hlow. injection Hlow as <-. destruct Hr as [<- | []]. lia.
    + assert (Hlow' : hd_error (rev (y :: l)) = Some low).
      { destruct (rev (y :: l)) as [|z t] eqn:E.
        - apply (f_equal (@List.length _)) in E. rewrite length_rev in E. discriminate.
        - exact Hlow. }
      destruct Hr as [<- | Hr].
      * rewrite Forall_forall in Hall.
        assert (Hin : In low (y :: l)).
        { apply in_rev. destruct (rev (y :: l)); [discriminate |].
          injection Hlow' as ->. now left. }
        now apply by_duelTotal_duelWon_desc_spec, Hall.
      * now apply IH.
Qed.

(** C2, the statement of the specification fails: on the frame with the
    count near the end of [int64] the last record returned is the one of
    the player with two duels, not the one with 2^63. *)
Lemma reversal_ends_on_every_frame_fails : ~ reversal_ends_on_every_frame.
Proof.
  intros Hclaim.
  destruct (Hclaim Overflow.ss Sample.match_id "Galatasaray") as [_ [_ [_ Htop]]].
  destruct (Htop {| player := "Small"; minutes := 90; won := 1; lost := 1 |}
                 {| player := "Huge"; minutes := 90; won := 2 ^ 62; lost := 2 ^ 62 |}
                 eq_refl (or_introl eq_refl)) as [_ H].
  vm_compute in H. now apply H.
Qed.

(** C2, amended. What the builder returns is the sorted sequence reversed,
    position by position: the first record returned is the last of the
    ranking and the last record returned is the first of the ranking.  For
    a frame whose eligible rows have counts below 2^52 in absolute value,
    the first record returned has the least total and the last the
    greatest. *)
Theorem fetch_player_duels_reversed (ss : Sofascore) (match_id : Z) (team : string) :
  let sorted := ranked_duels ss match_id team in
  let returned := fetch_player_duels ss match_id team in
  let n := List.length sorted in
  returned = rev sorted
  /\ (forall i : nat, (i < n)%nat -> nth_error returned i = nth_error sorted (n - 1 - i))
  /\ (Forall counts_in_range (eligible_rows ss match_id team) ->
      (forall low p : PlayerDuel,
          nth_error returned 0 = Some low -> In p returned ->
          nth_error sorted (n - 1) = Some low /\ duel_total low <= duel_total p)
      /\ (forall top p : PlayerDuel,
            nth_error returned (n - 1) = Some top -> In p returned ->
            nth_error sorted 0 = Some top /\ duel_total p <= duel_total top)).
Proof.
  intros sorted returned n.
  assert (Hpos : forall i : nat, (i < n)%nat ->
                 nth_error returned i = nth_error sorted (n - 1 - i)).
  { intros i Hi. subst returned. unfold fetch_player_duels. fold sorted.
    rewrite nth_error_rev. fold n.
    apply Nat.ltb_lt in Hi. rewrite Hi. f_equal. lia. }
  assert (Hn : forall (k : nat) q, nth_error returned k = Some q -> (k < n)%nat).
  { intros k q Hq.
    replace n with (List.length returned)
      by (subst returned n; unfold fetch_player_duels; apply length_rev).
    apply nth_error_Some. rewrite Hq. discriminate. }
  split; [reflexivity |]. split; [exact Hpos |].
  intros Hrange.
  pose proof (sorted_frame_total_is_sum _ Hrange) as Hsum.
  rewrite Forall_forall in Hsum.
  split.
  - intros low p Hlow Hp.
    pose proof (Hn _ _ Hlow) as Hpos_n.
    split; [rewrite <- Hlow, (Hpos 0%nat Hpos_n); f_equal; lia |].
    subst returned. unfold fetch_player_duels, ranked_duels in Hlow, Hp.
    rewrite sort_values_duels in Hlow, Hp.
    rewrite <- map_rev in Hlow. apply in_rev in Hp.
    apply in_map_iff in Hp as [rp [<- Hrp]].
    rewrite nth_error_map in Hlow.
    destruct (nth_error (rev _) 0) as [rl|] eqn:El; [|discriminate].
    injection Hlow as <-.
    assert (Hrl : In rl (stable_sort by_duelTotal_duelWon_desc
                           (map with_duelTotal (eligible_rows ss match_id team)))).
    { apply in_rev. exact (nth_error_In _ _ El). }
    rewrite (duel_total_to_dict rl (Hsum _ Hrl)), (duel_total_to_dict rp (Hsum _ Hrp)).
    apply (sorted_frame_last_min
             (map with_duelTotal (eligible_rows ss match_id team)) rl rp);
      [| exact Hrp].
    destruct (rev _); [discriminate | exact El].
  - intros top p Htop Hp.
    pose proof (Hn _ _ Htop) as Hpos_n.
    assert (Hfirst : nth_error sorted 0 = Some top).
    { rewrite <- Htop, (Hpos (n - 1)%nat) by lia. f_equal. lia. }
    split; [exact Hfirst |].
    subst returned sorted. unfold fetch_player_duels, ranked_duels in Hfirst, Hp.
    rewrite sort_values_duels in Hfirst, Hp.
    apply in_rev in Hp. apply in_map_iff in Hp as [rp [<- Hrp]].
    rewrite nth_error_map in Hfirst.
    destruct (nth_error (stable_sort _ _) 0) as [rt|] eqn:Et; [|discriminate].
    injection Hfirst as <-.
    rewrite (duel_total_to_dict rt (Hsum _ (nth_error_In _ _ Et))).
    rewrite (duel_total_to_dict rp (Hsum _ Hrp)).
    apply (sorted_frame_head_max
             (map with_duelTotal (eligible_rows ss match_id team)) rt rp);
      [| exact Hrp].
    destruct (stable_sort _ _); [discriminate | exact Et].
Qed.

Lemma fetch_player_duels_reversed_witness :
  fetch_player_duels Sample.ss Sample.match_id "Galatasaray"
  = rev (ranked_duels Sample.ss Sample.match_id "Galatasaray")
  /\ duel_total {| player := "Sara"; minutes := 71; won := 4; lost := 4 |}
     <= duel_total {| player := "Torreira"; minutes := 90; won := 5; lost := 3 |}.
Proof.
  destruct (fetch_player_duels_reversed Sample.ss Sample.match_id "Galatasaray")
    as [Hrev [_ Hends]].
  split; [exact Hrev |].
  assert (Hrange : Forall counts_in_range
                     (eligible_rows Sample.ss Sample.match_id "Galatasaray"))
    by (repeat constructor; simpl; lia).
  destruct (Hends Hrange) as [_ Htop].
  refine (proj2 (Htop _ _ eq_refl _)). right. right. now left.
Defined.

Lemma eligibleb_spec (team : string) (r : PlayerRow) :
  eligibleb team r = true <-> eligible team r.
Proof.
  unfold eligibleb, eligible, not_goalkeeper, is_starter, in_team.
  rewrite !andb_true_iff, negb_true_iff, eqb_true_iff.
  rewrite String.eqb_eq. split.
  - intros [[Hg Hs] Ht]. repeat split; try assumption.
    now apply String.eqb_neq.
  - intros [Hg [Hs Ht]]. repeat split; try assumption.
    now apply String.eqb_neq.
Qed.

Lemma filter_filter {A : Type} (f g : A -> bool) (l : list A) :
  filter g (filter f l) = filter (fun a => (f a && g a)%bool) l.
Proof.
  induction l as [|a l IH]; simpl.
  - reflexivity.
  - destruct (f a) eqn:Ef; simpl; [destruct (g a) eqn:Eg |]; now rewrite IH.
Qed.

Lemma eligible_rows_filter (ss : Sofascore) (match_id : Z) (team : string) :
  eligible_rows ss match_id team
  = filter (eligibleb team) (scrape_player_match_stats ss match_id).
Proof.
  unfold eligible_rows.
  rewrite (filter_filter not_goalkeeper is_starter), filter_filter.
  reflexivity.
Qed.

(** C3. The rows that reach the output are the rows of the provider's frame
    that are not goalkeepers, started the match and belong to the requested
    team, in their order and as often as they occur: a row is kept iff it
    meets the three conditions, and the output holds the records of the kept
    rows and nothing else. *)
Theorem fetch_player_duels_eligible (ss : Sofascore) (match_id : Z) (team : string) :
  let rows := scrape_player_match_stats ss match_id in
  let kept := eligible_rows ss match_id team in
  kept = filter (eligibleb team) rows
  /\ (forall r : PlayerRow, In r kept <-> In r rows /\ eligible team r)
  /\ Permutation (fetch_player_duels ss match_id team) (map record_of kept)
  /\ (forall p : PlayerDuel,
         In p (fetch_player_duels ss match_id team) <->
         exists r : PlayerRow, In r rows /\ eligible team r /\ record_of r = p).
Proof.
  intros rows kept.
  assert (Hkept : kept = filter (eligibleb team) rows)
    by apply eligible_rows_filter.
  assert (Hin : forall r : PlayerRow, In r kept <-> In r rows /\ eligible team r).
  { intros r. rewrite Hkept, filter_In, eligibleb_spec. reflexivity. }
  assert (Hperm : Permutation (fetch_player_duels ss match_id team)
                              (map record_of kept)).
  { unfold fetch_player_duels, ranked_duels. fold kept.
    rewrite sort_values_duels.
    rewrite <- Permutation_rev.
    unfold record_of. rewrite <- (map_map with_duelTotal to_dict).
    apply Permutation_map, stable_sort_perm. }
  split; [exact Hkept | split; [exact Hin | split; [exact Hperm |]]].
  intros p. split.
  - intros Hp. apply (Permutation_in _ Hperm) in Hp.
    apply in_map_iff in Hp as [r [Hr Hk]]. apply Hin in Hk as [Hrows Hel].
    now exists r.
  - intros [r [Hrows [Hel Hr]]].
    apply (Permutation_in _ (Permutation_sym Hperm)).
    apply in_map_iff. exists r. split; [exact Hr | now apply Hin].
Qed.

(** ** Match metadata *)

Lemma civil_from_days_month (days : Z) :
  1 <= month (civil_from_days days) <= 12.
Proof.
  unfold civil_from_days. cbn [month].
  set (doe := (days + 719468) mod 146097).
  assert (Hdoe : 0 <= doe < 146097) by (apply Z.mod_pos_bound; lia).
  set (yoe := (doe - doe / 1460 + doe / 36524 - doe / 146096) / 365).
  set (doy := doe - (365 * yoe + yoe / 4 - yoe / 100)).
  assert (Hdoy : 0 <= doy <= 365).
  { subst doy yoe. Z.to_euclidean_division_equations. lia. }
  set (mp := (5 * doy + 2) / 153).
  assert (Hmp : 0 <= mp <= 11).
  { subst mp. Z.to_euclidean_division_equations. lia. }
  destruct (mp <? 10) eqn:E; [apply Z.ltb_lt in E | apply Z.ltb_ge in E]; lia.
Qed.

Lemma TURKISH_MONTHS_complete (m : Z) :
  1 <= m <= 12 -> exists s : string, Py.getitem Z.eqb TURKISH_MONTHS m = Ok s.
Proof.
  intros Hm.
  assert (H : m = 1 \/ m = 2 \/ m = 3 \/ m = 4 \/ m = 5 \/ m = 6 \/ m = 7
              \/ m = 8 \/ m = 9 \/ m = 10 \/ m = 11 \/ m = 12) by lia.
  repeat (destruct H as [-> | H]; [eexists; reflexivity |]).
  subst m. eexists. reflexivity.
Qed.

Lemma fromtimestamp_month (utcoffset : Z -> Z) (ts : Z) (d : datetime) :
  fromtimestamp utcoffset ts = Ok d -> 1 <= month d <= 12.
Proof.
  unfold fromtimestamp. cbv zeta.
  repeat match goal with
         | |- context [if ?c then _ else _] => destruct c; [discriminate |]
         end.
  intros H. injection H as <-. apply civil_from_days_month.
Qed.

(** C10. Whatever the provider answers for a match, the season of the match
    summary is the fixed string 2025/2026: when the start time is a date the
    run time can represent, the summary is built and carries that season;
    otherwise the conversion of the time stamp fails and no summary is
    built.  The month table never fails. *)
Theorem fetch_match_info_season (utcoffset : Z -> Z) (ss : Sofascore) (match_id : Z) :
  match fromtimestamp utcoffset (startTimestamp (get_match_dict ss match_id)) with
  | Ok _ =>
      exists info : MatchInfo,
        fetch_match_info utcoffset ss match_id = Ok info
        /\ season info = "2025/2026"
  | Err e => fetch_match_info utcoffset ss match_id = Err e
  end.
Proof.
  unfold fetch_match_info.
  destruct (fromtimestamp utcoffset _) as [d | e] eqn:Ed; cbn [Py.bind].
  - destruct (TURKISH_MONTHS_complete (month d) (fromtimestamp_month _ _ _ Ed))
      as [s Hs].
    rewrite Hs. cbn [Py.bind]. eexists. split; reflexivity.
  - reflexivity.
Qed.

(** ** The chart *)

Lemma totals_duel_total (players : list PlayerDuel) :
  map (fun wl => fst wl + snd wl) (combine (map won players) (map lost players))
  = map duel_total players.
Proof.
  induction players as [|p players IH]; simpl.
  - reflexivity.
  - now rewrite IH.
Qed.

Lemma fold_left_max_ge (l : list Z) (x : Z) :
  x <= fold_left Z.max l x /\ (forall y, In y l -> y <= fold_left Z.max l x).
Proof.
  revert x. induction l as [|a l IH]; intros x; simpl.
  - split; [lia | intros y []].
  - destruct (IH (Z.max x a)) as [H1 H2]. split; [lia |].
    intros y [<- | Hy]; [lia | now apply H2].
Qed.

Lemma fold_left_max_in (l : list Z) (x : Z) :
  fold_left Z.max l x = x \/ In (fold_left Z.max l x) l.
Proof.
  revert x. induction l as [|a l IH]; intros x; simpl.
  - now left.
  - destruct (IH (Z.max x a)) as [H | H].
    + rewrite H. destruct (Z.max_spec x a) as [[_ ->] | [_ ->]]; auto.
    + auto.
Qed.

(** [np.max] succeeds on every non-empty array, with its greatest element. *)
Lemma np_max_spec (a : list Z) :
  a <> [] ->
  exists m : Z, np_max a = Ok m /\ In m a /\ (forall y, In y a -> y <= m).
Proof.
  destruct a as [|x a]; [congruence |]. intros _.
  exists (fold_left Z.max a x). split; [reflexivity |].
  pose proof (fold_left_max_ge a x) as [H1 H2].
  split.
  - destruct (fold_left_max_in a x) as [-> | H]; [now left | now right].
  - intros y [<- | Hy]; [exact H1 | now apply H2].
Qed.

(** Opens a successful call of [create_chart]: names the maximum [m] that
    the chart section computed and replaces the figure by its construction. *)
Ltac open_chart H m :=
  unfold create_chart in H; rewrite totals_duel_total in H;
  let E := fresh "Emax" in
  destruct (np_max (map duel_total _)) as [m | ?] eqn:E;
  [cbn [Py.bind] in H; injection H as <- | discriminate H].

Lemma is_max_total_unique (players : list PlayerDuel) (m m' : Z) :
  is_max_total players m -> is_max_total players m' -> m = m'.
Proof.
  intros [[p [Hp Ep]] Hm] [[p' [Hp' Ep']] Hm'].
  specialize (Hm p' Hp'). specialize (Hm' p Hp). lia.
Qed.

Lemma np_max_is_max_total (players : list PlayerDuel) (m : Z) :
  np_max (map duel_total players) = Ok m -> is_max_total players m.
Proof.
  intros H. destruct players as [|p players]; [discriminate |].
  destruct (np_max_spec (map duel_total (p :: players))) as [m' [E [Hin Hmax]]];
    [discriminate |].
  rewrite E in H. injection H as ->.
  apply in_map_iff in Hin as [q [Eq Hq]].
  split; [now exists q |].
  intros r Hr. apply Hmax. now apply in_map.
Qed.

(** C4. When no row passes the filter the builder returns the empty
    sequence, without an error; [create_chart] on that sequence does not
    render the chart: the maximum of the empty array of totals raises a
    [ValueError], whatever the match and team summaries. *)
Theorem empty_dataset_chart_raises (ss : Sofascore) (match_id : Z) (team : string) :
  eligible_rows ss match_id team = [] ->
  fetch_player_duels ss match_id team = []
  /\ (forall (match_info : MatchInfo) (team_stats : TeamStats),
         create_chart (fetch_player_duels ss match_id team) match_info team_stats
         = Err ValueError).
Proof.
  intros Hnone.
  assert (E : fetch_player_duels ss match_id team = []).
  { unfold fetch_player_duels, ranked_duels. now rewrite Hnone. }
  split; [exact E |]. intros match_info team_stats. now rewrite E.
Qed.

Lemma empty_dataset_chart_raises_witness :
  eligible_rows Sample.ss Sample.match_id "Trabzonspor" = []
  /\ fetch_player_duels Sample.ss Sample.match_id "Trabzonspor" = []
  /\ create_chart (fetch_player_duels Sample.ss Sample.match_id "Trabzonspor")
                  Sample.match_info Sample.stats
     = Err ValueError.
Proof.
  split; [reflexivity |].
  destruct (empty_dataset_chart_raises Sample.ss Sample.match_id "Trabzonspor"
              eq_refl) as [Hnil Hraise].
  split; [exact Hnil | exact (Hraise Sample.match_info Sample.stats)].
Defined.

Lemma int_of_Q_padding (m : Z) :
  0 <= m -> Py.int_of_Q (inject_Z m + (3 # 2))%Q = m + 1.
Proof.
  intros Hm. unfold Py.int_of_Q. cbn [Qplus inject_Z Qnum Qden Pos.mul].
  rewrite Z.quot_div_nonneg by lia.
  replace (m * 2 + 3 * 1) with (1 + (m + 1) * 2) by lia.
  rewrite Z.div_add by lia. reflexivity.
Qed.

(** C5, the statement of the specification fails: for one player with three
    duels won and one lost the greatest total is 4 and the bound is 5, not
    5.5. *)
Lemma xlim_is_max_plus_padding_fails : ~ xlim_is_max_plus_padding.
Proof.
  intros Hclaim.
  pose (players := [ {| player := "A"; minutes := 90; won := 3; lost := 1 |} ]).
  destruct (create_chart players Sample.match_info Sample.stats) as [fig | e] eqn:E;
    [| discriminate E].
  assert (Hmax : is_max_total players 4).
  { split.
    - eexists. split; [left; reflexivity | reflexivity].
    - intros p [<- | []]. unfold duel_total. simpl. lia. }
  specialize (Hclaim players Sample.match_info Sample.stats fig 4
                     ltac:(discriminate) Hmax E).
  vm_compute in E. injection E as <-. vm_compute in Hclaim. discriminate Hclaim.
Qed.

(** C5, amended. Whenever [create_chart] draws the chart of players whose
    counts are not negative and below 2^50, so that the [float64] arrays
    hold them and their sums exactly, the horizontal axis of the chart runs
    from 0 to the greatest total plus 1: the padding of 1.5 is added and the
    sum is truncated to an integer. *)
Theorem chart_xlim_truncated (players : list PlayerDuel) (match_info : MatchInfo)
        (team_stats : TeamStats) (fig : Figure) :
  Forall exact_counts players ->
  create_chart players match_info team_stats = Ok fig ->
  exists m : Z,
    is_max_total players m
    /\ chart_xlim (chart_section fig) = (0, m + 1)
    /\ m + 1 = Py.int_of_Q (inject_Z m + (3 # 2))%Q.
Proof.
  intros Hexact Hfig. open_chart Hfig m.
  pose proof (np_max_is_max_total players m Emax) as Hmax.
  assert (Hm : 0 <= m).
  { destruct Hmax as [[p [Hp <-]] _]. rewrite Forall_forall in Hexact.
    destruct (Hexact p Hp) as [Hw Hl]. unfold duel_total. lia. }
  exists m. split; [exact Hmax |].
  cbn [chart_section chart_xlim]. rewrite (int_of_Q_padding m Hm). auto.
Qed.

Lemma chart_xlim_truncated_witness :
  exists fig : Figure,
    create_chart Sample.duels Sample.match_info Sample.stats = Ok fig
    /\ chart_xlim (chart_section fig) = (0, 5).
Proof.
  assert (Hfig : exists fig : Figure,
             create_chart Sample.duels Sample.match_info Sample.stats = Ok fig)
    by (vm_compute; eexists; reflexivity).
  destruct Hfig as [fig E]. exists fig. split; [exact E |].
  destruct (chart_xlim_truncated Sample.duels Sample.match_info Sample.stats fig)
    as [m [Hmax [Hx _]]].
  - repeat constructor; simpl; lia.
  - exact E.
  - assert (Hm : m = 4).
    { apply (is_max_total_unique Sample.duels); [exact Hmax |]. split.
      - eexists. split; [right; left; reflexivity | reflexivity].
      - intros p [<- | [<- | []]]; unfold duel_total; simpl; lia. }
    rewrite Hx, Hm. reflexivity.
Defined.




(** C9, the statement of the specification fails: the label of the sample
    match reads "%51 Galatasaray - (52)", the percent sign first. *)
Lemma legend_labels_as_specified_fails : ~ legend_labels_as_specified.
Proof.
  intros Hclaim.
  destruct (create_chart Sample.duels Sample.match_info Sample.stats)
    as [fig | e] eqn:E; [| discriminate E].
  destruct (Hclaim _ _ _ fig E) as [H1 _].
  vm_compute in E. injection E as <-. vm_compute in H1. discriminate H1.
Qed.

(** C9, amended. Each of the two legend segments is labelled with the
    percent sign, the percentage, a space, the name of the side, and the
    wins of that side in parentheses after a dash: "%{pct} {name} -
    ({wins})". *)
Theorem legend_labels_percent_first (players : list PlayerDuel) (match_info : MatchInfo)
        (team_stats : TeamStats) (fig : Figure) :
  create_chart players match_info team_stats = Ok fig ->
  lbar_label (lbar1 (legend_section fig))
  = ("%" ++ Py.str (team_pct team_stats) ++ " " ++ team_name team_stats
     ++ " - (" ++ Py.str (team_won team_stats) ++ ")")%string
  /\ lbar_label (lbar2 (legend_section fig))
     = ("%" ++ Py.str (opponent_pct team_stats) ++ " " ++ opponent_name team_stats
        ++ " - (" ++ Py.str (opponent_won team_stats) ++ ")")%string.
Proof.
  intros Hfig. open_chart Hfig m. split; reflexivity.
Qed.

Lemma legend_labels_percent_first_witness :
  exists fig : Figure,
    create_chart Sample.duels Sample.match_info Sample.stats = Ok fig
    /\ lbar_label (lbar1 (legend_section fig)) = "%51 Galatasaray - (52)"
    /\ lbar_label (lbar2 (legend_section fig)) = "%49 Fenerbahçe - (51)".
Proof.
  destruct (create_chart Sample.duels Sample.match_info Sample.stats)
    as [fig | e] eqn:E; [| discriminate E].
  exists fig. split; [reflexivity |].
  destruct (legend_labels_percent_first _ _ _ fig E) as [-> ->].
  split; reflexivity.
Defined.

(** ** The legend bar *)

Lemma widths_add_up_0_100 :
  forallb widths_add_up (map Z.of_nat (seq 0 101)) = true.
Proof. vm_compute. reflexivity. Qed.

Lemma widths_add_up_all (pct : Z) : 0 <= pct <= 100 -> widths_add_up pct = true.
Proof.
  intros Hpct.
  pose proof widths_add_up_0_100 as H. rewrite forallb_forall in H.
  apply H. apply in_map_iff. exists (Z.to_nat pct).
  split; [lia | apply in_seq; lia].
Qed.

(** C6. For every integer team percentage from 0 to 100 the legend draws the
    team segment with width [(pct / 100) * LEGEND_TOTAL_WIDTH] and the
    opponent segment, which starts where the team segment ends, with width
    [LEGEND_TOTAL_WIDTH - teamWidth]; in float64 arithmetic the two widths
    add up to [LEGEND_TOTAL_WIDTH] exactly, and for 51 per cent they are the
    floats 3.06 and 2.94. *)
Theorem legend_widths_add_up (players : list PlayerDuel) (match_info : MatchInfo)
        (team_stats : TeamStats) (fig : Figure) :
  0 <= team_pct team_stats <= 100 ->
  create_chart players match_info team_stats = Ok fig ->
  let teamWidth := lbar_width (lbar1 (legend_section fig)) in
  let opponentWidth := lbar_width (lbar2 (legend_section fig)) in
  teamWidth
  = (Py.float_of_Z (team_pct team_stats) / Py.float_of_Z 100 * LEGEND_TOTAL_WIDTH)%float
  /\ opponentWidth = (LEGEND_TOTAL_WIDTH - teamWidth)%float
  /\ lbar_left (lbar2 (legend_section fig)) = teamWidth
  /\ PrimFloat.eqb (teamWidth + opponentWidth)%float LEGEND_TOTAL_WIDTH = true
  /\ LEGEND_TOTAL_WIDTH = 6.0%float
  /\ (team_pct team_stats = 51 ->
      PrimFloat.eqb teamWidth 3.06%float = true
      /\ PrimFloat.eqb opponentWidth 2.94%float = true).
Proof.
  intros Hpct Hfig. open_chart Hfig m.
  cbn [legend_section lbar1 lbar2 lbar_width lbar_left].
  repeat split.
  - exact (widths_add_up_all _ Hpct).
  - rewrite H. vm_compute. reflexivity.
  - rewrite H. vm_compute. reflexivity.
Qed.

Lemma legend_widths_add_up_witness :
  exists fig : Figure,
    create_chart Sample.duels Sample.match_info Sample.stats = Ok fig
    /\ PrimFloat.eqb (lbar_width (lbar1 (legend_section fig))) 3.06%float = true
    /\ PrimFloat.eqb (lbar_width (lbar2 (legend_section fig))) 2.94%float = true
    /\ PrimFloat.eqb (lbar_width (lbar1 (legend_section fig))
                      + lbar_width (lbar2 (legend_section fig)))%float
                     6.0%float = true.
Proof.
  destruct (create_chart Sample.duels Sample.match_info Sample.stats)
    as [fig | e] eqn:E; [| discriminate E].
  exists fig. split; [reflexivity |].
  destruct (legend_widths_add_up Sample.duels Sample.match_info Sample.stats fig
              ltac:(simpl; lia) E)
    as [_ [_ [_ [Hsum [_ H51]]]]].
  destruct (H51 eq_refl) as [Ht Ho].
  split; [exact Ht | split; [exact Ho | exact Hsum]].
Defined.

(** ** The team summary *)

(** No [LookupError] for a team that did not play: for the sample match,
    played by Galatasaray and Fenerbahçe, a summary is returned for
    Trabzonspor, built from the away side. *)
Lemma unknown_team_is_LookupError_fails : ~ unknown_team_is_LookupError.
Proof.
  intros Hclaim.
  destruct (Hclaim Sample.ss Sample.match_id "Trabzonspor") as [e [He _]].
  - discriminate.
  - discriminate.
  - vm_compute in He. discriminate He.
Qed.

(** C8. What the code does where the specification asks for a
    [LookupError]: a requested team name that differs from the home name of
    the lookup, be it the away name or neither of the two, is taken for the
    away side without any check.  When the three statistic rows of the whole
    match are there and the two percentages parse, a summary is returned,
    with the requested name as team name, the home name as opponent name,
    the percentages of the away and of the home column, and the wins summed
    from the away and from the home values: for a team that did not play,
    the figures of the away team under the name of the requested one. *)
Theorem fetch_team_percentages_not_home
        (ss : Sofascore) (match_id : Z) (team : string)
        (duel_row ground_row aerial_row : TeamStat.row) (pct opp_pct : Z) :
  let game :=
    filter (fun r => (TeamStat.period r =? "ALL")%string)
           (scrape_team_match_stats ss match_id) in
  team <> fst (get_team_names ss match_id) ->
  hd_error (filter (named "Duels") game) = Some duel_row ->
  hd_error (filter (named "Ground duels") game) = Some ground_row ->
  hd_error (filter (named "Aerial duels") game) = Some aerial_row ->
  Py.int_of_str (Py.remove_char "%" (TeamStat.away duel_row)) = Ok pct ->
  Py.int_of_str (Py.remove_char "%" (TeamStat.home duel_row)) = Ok opp_pct ->
  fetch_team_percentages ss match_id team
  = Ok {| team_pct := pct;
          opponent_pct := opp_pct;
          team_name := team;
          opponent_name := fst (get_team_names ss match_id);
          team_won := TeamStat.awayValue ground_row + TeamStat.awayValue aerial_row;
          opponent_won := TeamStat.homeValue ground_row + TeamStat.homeValue aerial_row;
          total := (TeamStat.awayValue ground_row + TeamStat.awayValue aerial_row)
                   + (TeamStat.homeValue ground_row + TeamStat.homeValue aerial_row) |}.
Proof.
  intros game Hteam Hduel Hground Haerial Hpct Hopp.
  unfold fetch_team_percentages, iloc0. fold game.
  rewrite Hduel, Hground, Haerial. cbn [Py.of_option Py.bind].
  assert (Hside : (fst (get_team_names ss match_id) =? team)%string = false).
  { apply String.eqb_neq. congruence. }
  rewrite Hside, Hpct, Hopp. reflexivity.
Qed.

Lemma fetch_team_percentages_not_home_witness :
  fetch_team_percentages Sample.ss Sample.match_id "Trabzonspor"
  = Ok {| team_pct := 49; opponent_pct := 51;
          team_name := "Trabzonspor"; opponent_name := "Galatasaray";
          team_won := 51; opponent_won := 52; total := 103 |}.
Proof.
  exact (fetch_team_percentages_not_home
           Sample.ss Sample.match_id "Trabzonspor"
           (Sample.stat "Duels" "51%" "49%" 51 49)
           (Sample.stat "Ground duels" "40/78 (51%)" "38/78 (49%)" 40 38)
           (Sample.stat "Aerial duels" "12/25 (48%)" "13/25 (52%)" 12 13)
           49 51
           ltac:(discriminate) eq_refl eq_refl eq_refl eq_refl eq_refl).
Defined.

(** ** The sample match, evaluated *)

Example sample_match_info :
  fetch_match_info Sample.utcoffset Sample.ss Sample.match_id = Ok Sample.match_info.
Proof. reflexivity. Qed.

(** Torreira and Yunus are tied on both keys and stay in the order of the
    frame; the goalkeeper, the substitute and the other team are gone; the
    counts left out count as zero. *)
Example sample_ranked_duels :
  map player (ranked_duels Sample.ss Sample.match_id "Galatasaray")
  = ["Torreira"; "Yunus"; "Sara"; "Sanchez"; "Osimhen"].
Proof. reflexivity. Qed.

Example sample_fetch_player_duels :
  map player (fetch_player_duels Sample.ss Sample.match_id "Galatasaray")
  = ["Osimhen"; "Sanchez"; "Sara"; "Yunus"; "Torreira"].
Proof. reflexivity. Qed.

(** Two starters A (3 won, 1 lost) and B (1 won, 2 lost): A is ranked
    first, and the chart receives B then A. *)
Example two_players_reversed :
  let ss :=
    {| get_match_dict := fun _ => Sample.match_dict;
       scrape_player_match_stats := fun _ =>
         [ Sample.row "B" "M" false "Galatasaray" (Some 90) (Some 1) (Some 2);
           Sample.row "A" "F" false "Galatasaray" (Some 90) (Some 3) (Some 1) ];
       scrape_team_match_stats := fun _ => Sample.team_stats;
       get_team_names := fun _ => ("Galatasaray", "Fenerbahçe") |} in
  map player (ranked_duels ss Sample.match_id "Galatasaray") = ["A"; "B"]
  /\ fetch_player_duels ss Sample.match_id "Galatasaray" = Sample.duels.
Proof. split; reflexivity. Qed.

Example sample_team_percentages :
  fetch_team_percentages Sample.ss Sample.match_id "Galatasaray" = Ok Sample.stats.
Proof. reflexivity. Qed.

Example percentage_strings :
  Py.int_of_str (Py.remove_char "%" "51%") = Ok 51
  /\ Py.int_of_str (Py.remove_char "%" " 7% ") = Ok 7
  /\ Py.int_of_str (Py.remove_char "%" "40/78 (51%)") = Err ValueError
  /\ Py.int_of_str (Py.remove_char "%" "%") = Err ValueError.
Proof. repeat split; reflexivity. Qed.

(** A run for a team that did not play: the team summary is built from the
    away side, there is no player, and the chart is not drawn. *)
Example sample_main_other_team :
  main Sample.utcoffset Sample.ss Sample.match_id "Trabzonspor" = Err ValueError.
Proof. reflexivity. Qed.

Example sample_main_xlim :
  exists fig : Figure,
    main Sample.utcoffset Sample.ss Sample.match_id "Galatasaray" = Ok fig
    /\ chart_xlim (chart_section fig) = (0, 9)
    /\ bar1_labels (chart_section fig) = [""; "3"; "4"; "5"; "5"]
    /\ bar2_labels (chart_section fig) = ["3"; ""; "4"; "3"; "3"].
Proof. eexists. repeat split; reflexivity. Qed.

(** * Further properties *)

(** ** The dataset builder, continued *)

Lemma fetch_player_duels_perm (ss : Sofascore) (match_id : Z) (team : string) :
  Permutation (fetch_player_duels ss match_id team)
              (map record_of (eligible_rows ss match_id team)).
Proof.
  unfold fetch_player_duels, ranked_duels. rewrite sort_values_duels.
  rewrite <- Permutation_rev.
  unfold record_of. rewrite <- (map_map with_duelTotal to_dict).
  apply Permutation_map, stable_sort_perm.
Qed.




(** When no count of the frame is negative, no record of the result has a
    negative number of minutes, of duels won or of duels lost, and so no
    negative total, missing counts included. *)
Theorem fetch_player_duels_nonnegative (ss : Sofascore) (match_id : Z) (team : string) :
  Forall (fun r => count_ok (minutesPlayed r) /\ count_ok (duelWon r)
                   /\ count_ok (duelLost r))
         (scrape_player_match_stats ss match_id) ->
  Forall (fun p => 0 <= minutes p /\ 0 <= won p /\ 0 <= lost p /\ 0 <= duel_total p)
         (fetch_player_duels ss match_id team).
Proof.
  intros Hrows. rewrite Forall_forall in *. intros p Hp.
  apply (Permutation_in _ (fetch_player_duels_perm ss match_id team)) in Hp.
  apply in_map_iff in Hp as [r [<- Hr]].
  rewrite eligible_rows_filter in Hr. apply filter_In in Hr as [Hr _].
  destruct (Hrows r Hr) as [Hm [Hw Hl]].
  unfold duel_total, record_of, to_dict, with_duelTotal, count_ok, fillna in *.
  cbn [minutes won lost row_minutesPlayed row_duelWon row_duelLost row_name].
  destruct (minutesPlayed r), (duelWon r), (duelLost r); lia.
Qed.

Lemma fetch_player_duels_nonnegative_witness :
  Forall (fun p => 0 <= minutes p /\ 0 <= won p /\ 0 <= lost p /\ 0 <= duel_total p)
         (fetch_player_duels Sample.ss Sample.match_id "Galatasaray").
Proof.
  apply (fetch_player_duels_nonnegative Sample.ss Sample.match_id "Galatasaray").
  repeat constructor; simpl; lia.
Defined.

(** For a frame whose eligible rows have counts below 2^52 in absolute
    value, the list handed to the chart is in ascending order: from one
    record to the next the total does not decrease and, where the totals
    are equal, neither do the duels won. *)
Theorem fetch_player_duels_ascending (ss : Sofascore) (match_id : Z) (team : string)
        (i : nat) (a b : PlayerDuel) :
  Forall counts_in_range (eligible_rows ss match_id team) ->
  nth_error (fetch_player_duels ss match_id team) i = Some a ->
  nth_error (fetch_player_duels ss match_id team) (S i) = Some b ->
  duel_total a <= duel_total b /\ (duel_total a = duel_total b -> won a <= won b).
Proof.
  unfold fetch_player_duels. intros Hrange Ha Hb.
  set (l := ranked_duels ss match_id team) in *.
  assert (Hi : (S i < List.length l)%nat).
  { rewrite <- length_rev. apply nth_error_Some. rewrite Hb. discriminate. }
  rewrite nth_error_rev in Ha, Hb.
  destruct (Nat.ltb_spec i (List.length l)) as [_ | ?]; [| lia].
  destruct (Nat.ltb_spec (S i) (List.length l)) as [_ | ?]; [| lia].
  replace (List.length l - S i)%nat with (S (List.length l - S (S i)))%nat in Ha by lia.
  destruct (ranked_duels_adjacent ss match_id team _ b a Hrange Hb Ha) as [H1 H2].
  split; [exact H1 |]. intros E. apply H2. lia.
Qed.

Lemma fetch_player_duels_ascending_witness :
  duel_total {| player := "Sanchez"; minutes := 90; won := 3; lost := 0 |}
  <= duel_total {| player := "Sara"; minutes := 71; won := 4; lost := 4 |}.
Proof.
  refine (proj1 (fetch_player_duels_ascending Sample.ss Sample.match_id "Galatasaray"
                   1 _ _ _ eq_refl eq_refl)).
  repeat constructor; simpl; lia.
Defined.

Lemma filter_disjoint_length {A : Type} (f g : A -> bool) (l : list A) :
  (forall a, f a = true -> g a = true -> False) ->
  (List.length (filter f l) + List.length (filter g l) <= List.length l)%nat.
Proof.
  intros Hfg. induction l as [|a l IH]; simpl.
  - lia.
  - destruct (f a) eqn:Ef, (g a) eqn:Eg; simpl; try lia.
    destruct (Hfg a Ef Eg).
Qed.

(** No row serves two teams: the records returned for two different team
    names are together no more than the rows of the frame. *)
Theorem fetch_player_duels_two_teams (ss : Sofascore) (match_id : Z)
        (team other : string) :
  team <> other ->
  (List.length (fetch_player_duels ss match_id team)
   + List.length (fetch_player_duels ss match_id other)
   <= List.length (scrape_player_match_stats ss match_id))%nat.
Proof.
  intros Hne.
  rewrite (Permutation_length (fetch_player_duels_perm ss match_id team)).
  rewrite (Permutation_length (fetch_player_duels_perm ss match_id other)).
  rewrite !length_map, !eligible_rows_filter.
  apply filter_disjoint_length. intros r H1 H2.
  apply eligibleb_spec in H1 as [_ [_ H1]]. apply eligibleb_spec in H2 as [_ [_ H2]].
  congruence.
Qed.

Lemma fetch_player_duels_two_teams_witness :
  (List.length (fetch_player_duels Sample.ss Sample.match_id "Galatasaray")
   + List.length (fetch_player_duels Sample.ss Sample.match_id "Fenerbahçe")
   <= List.length (scrape_player_match_stats Sample.ss Sample.match_id))%nat.
Proof.
  apply (fetch_player_duels_two_teams Sample.ss Sample.match_id). discriminate.
Defined.

(** ** The team summary, continued *)

Lemma int_of_str_error (s : string) (e : Py.exn) :
  Py.int_of_str s = Err e -> e = ValueError.
Proof.
  unfold Py.int_of_str, Py.of_option.
  repeat match goal with
         | |- context [match ?x with _ => _ end] => destruct x
         end; intros H; try discriminate H; now injection H.
Qed.

(** The summary in terms of the three rows it reads. *)
Lemma fetch_team_percentages_rows (ss : Sofascore) (match_id : Z) (team : string) :
  fetch_team_percentages ss match_id team
  = (duel_row <- Py.of_option IndexError (stat_row ss match_id "Duels") ;;
     ground_row <- Py.of_option IndexError (stat_row ss match_id "Ground duels") ;;
     aerial_row <- Py.of_option IndexError (stat_row ss match_id "Aerial duels") ;;
     let is_home := (fst (get_team_names ss match_id) =? team)%string in
     team_pct <- Py.int_of_str (Py.remove_char "%"
                   (if is_home then TeamStat.home duel_row else TeamStat.away duel_row)) ;;
     opponent_pct <- Py.int_of_str (Py.remove_char "%"
                   (if is_home then TeamStat.away duel_row else TeamStat.home duel_row)) ;;
     let home_won := TeamStat.homeValue ground_row + TeamStat.homeValue aerial_row in
     let away_won := TeamStat.awayValue ground_row + TeamStat.awayValue aerial_row in
     Ok {| team_pct := team_pct;
           opponent_pct := opponent_pct;
           team_name := team;
           opponent_name :=
             if is_home then snd (get_team_names ss match_id)
             else fst (get_team_names ss match_id);
           team_won := if is_home then home_won else away_won;
           opponent_won := if is_home then away_won else home_won;
           total := (if is_home then home_won else away_won)
                    + (if is_home then away_won else home_won) |}).
Proof. reflexivity. Qed.

(** Opens a call of [fetch_team_percentages] on its three rows. *)
Ltac open_rows ss match_id :=
  rewrite !fetch_team_percentages_rows;
  destruct (stat_row ss match_id "Duels") as [duel_row |];
  [destruct (stat_row ss match_id "Ground duels") as [ground_row |];
   [destruct (stat_row ss match_id "Aerial duels") as [aerial_row |] | ] | ];
  cbn [Py.of_option Py.bind].

(** When the requested team is the home team of the lookup, the summary
    reads the home side for the team and the away side for the opponent:
    the percentages of the home and away columns and the wins summed from
    the home and away values, the away name being the opponent. *)
Theorem fetch_team_percentages_home
        (ss : Sofascore) (match_id : Z) (team : string)
        (duel_row ground_row aerial_row : TeamStat.row) (pct opp_pct : Z) :
  team = fst (get_team_names ss match_id) ->
  stat_row ss match_id "Duels" = Some duel_row ->
  stat_row ss match_id "Ground duels" = Some ground_row ->
  stat_row ss match_id "Aerial duels" = Some aerial_row ->
  Py.int_of_str (Py.remove_char "%" (TeamStat.home duel_row)) = Ok pct ->
  Py.int_of_str (Py.remove_char "%" (TeamStat.away duel_row)) = Ok opp_pct ->
  fetch_team_percentages ss match_id team
  = Ok {| team_pct := pct;
          opponent_pct := opp_pct;
          team_name := team;
          opponent_name := snd (get_team_names ss match_id);
          team_won := TeamStat.homeValue ground_row + TeamStat.homeValue aerial_row;
          opponent_won := TeamStat.awayValue ground_row + TeamStat.awayValue aerial_row;
          total := (TeamStat.homeValue ground_row + TeamStat.homeValue aerial_row)
                   + (TeamStat.awayValue ground_row + TeamStat.awayValue aerial_row) |}.
Proof.
  intros Hteam Hduel Hground Haerial Hpct Hopp.
  rewrite fetch_team_percentages_rows, Hduel, Hground, Haerial.
  cbn [Py.of_option Py.bind]. cbv zeta.
  rewrite <- Hteam, String.eqb_refl, Hpct, Hopp. reflexivity.
Qed.

Lemma fetch_team_percentages_home_witness :
  fetch_team_percentages Sample.ss Sample.match_id "Galatasaray"
  = Ok {| team_pct := 51; opponent_pct := 49;
          team_name := "Galatasaray"; opponent_name := "Fenerbahçe";
          team_won := 52; opponent_won := 51; total := 103 |}.
Proof.
  exact (fetch_team_percentages_home
           Sample.ss Sample.match_id "Galatasaray"
           (Sample.stat "Duels" "51%" "49%" 51 49)
           (Sample.stat "Ground duels" "40/78 (51%)" "38/78 (49%)" 40 38)
           (Sample.stat "Aerial duels" "12/25 (48%)" "13/25 (52%)" 12 13)
           51 49 eq_refl eq_refl eq_refl eq_refl eq_refl eq_refl).
Defined.

(** The summary fails with an [IndexError] exactly when one of the rows
    Duels, Ground duels and Aerial duels is missing among the rows of the
    whole match; its only other failure is the [ValueError] of a percentage
    that does not parse. *)
Theorem fetch_team_percentages_errors (ss : Sofascore) (match_id : Z) (team : string) :
  (fetch_team_percentages ss match_id team = Err IndexError
   <-> stat_row ss match_id "Duels" = None
       \/ stat_row ss match_id "Ground duels" = None
       \/ stat_row ss match_id "Aerial duels" = None)
  /\ (forall e : Py.exn,
         fetch_team_percentages ss match_id team = Err e ->
         e = IndexError \/ e = ValueError).
Proof.
  open_rows ss match_id.
  2-4: split; [split; [tauto | reflexivity] | intros e H; left; congruence].
  cbv zeta.
  destruct (Py.int_of_str _) as [p | e1] eqn:E1; cbn [Py.bind].
  - destruct (Py.int_of_str _) as [q | e2] eqn:E2 in |- *; cbn [Py.bind].
    + split; [split; [discriminate | intros [H | [H | H]]; discriminate H] |].
      intros e H. discriminate H.
    + apply int_of_str_error in E2. subst e2.
      split; [split; [discriminate | intros [H | [H | H]]; discriminate H] |].
      intros e H. right. congruence.
  - apply int_of_str_error in E1. subst e1.
    split; [split; [discriminate | intros [H | [H | H]]; discriminate H] |].
    intros e H. right. congruence.
Qed.

(** A summary that is returned names the requested team, has for total the
    wins of the two sides, and that total is the sum of the home and away
    values of the ground and aerial rows, whichever team was requested. *)
Theorem fetch_team_percentages_total (ss : Sofascore) (match_id : Z) (team : string)
        (s : TeamStats) :
  fetch_team_percentages ss match_id team = Ok s ->
  team_name s = team
  /\ total s = team_won s + opponent_won s
  /\ exists ground_row aerial_row : TeamStat.row,
       stat_row ss match_id "Ground duels" = Some ground_row
       /\ stat_row ss match_id "Aerial duels" = Some aerial_row
       /\ total s = TeamStat.homeValue ground_row + TeamStat.homeValue aerial_row
                    + TeamStat.awayValue ground_row + TeamStat.awayValue aerial_row.
Proof.
  open_rows ss match_id; try discriminate. cbv zeta.
  destruct (Py.int_of_str _) as [p | e1]; cbn [Py.bind]; [| discriminate].
  destruct (Py.int_of_str _) as [q | e2]; cbn [Py.bind]; [| discriminate].
  intros H. injection H as <-. cbn [team_name total team_won opponent_won].
  split; [reflexivity |]. split; [reflexivity |].
  exists ground_row, aerial_row. split; [reflexivity |]. split; [reflexivity |].
  destruct (_ =? _)%string; lia.
Qed.

Lemma fetch_team_percentages_total_witness :
  total Sample.stats = team_won Sample.stats + opponent_won Sample.stats.
Proof.
  exact (proj1 (proj2 (fetch_team_percentages_total
                         Sample.ss Sample.match_id "Galatasaray" Sample.stats
                         eq_refl))).
Defined.

(** The two sides mirror each other: the summary of any team that is not
    the home team is the summary of the home team with team and opponent
    exchanged, and one fails when the other does, with the same error. *)
Theorem fetch_team_percentages_mirror (ss : Sofascore) (match_id : Z) (team : string) :
  team <> fst (get_team_names ss match_id) ->
  fetch_team_percentages ss match_id team
  = match fetch_team_percentages ss match_id (fst (get_team_names ss match_id)) with
    | Ok s => Ok (mirrored s team)
    | Err e => Err e
    end.
Proof.
  intros Hteam. open_rows ss match_id; try reflexivity. cbv zeta.
  rewrite String.eqb_refl.
  assert (Hside : (fst (get_team_names ss match_id) =? team)%string = false)
    by (apply String.eqb_neq; congruence).
  rewrite Hside.
  destruct (Py.int_of_str (Py.remove_char "%" (TeamStat.away duel_row)))
    as [a | ea] eqn:Ea;
    destruct (Py.int_of_str (Py.remove_char "%" (TeamStat.home duel_row)))
    as [h | eh] eqn:Eh; cbn [Py.bind]; try reflexivity.
  apply int_of_str_error in Ea, Eh. now subst.
Qed.

Lemma fetch_team_percentages_mirror_witness :
  fetch_team_percentages Sample.ss Sample.match_id "Fenerbahçe"
  = Ok (mirrored Sample.stats "Fenerbahçe").
Proof.
  exact (fetch_team_percentages_mirror Sample.ss Sample.match_id "Fenerbahçe"
           ltac:(discriminate)).
Defined.

Lemma filter_idempotent {A : Type} (f : A -> bool) (l : list A) :
  filter f (filter f l) = filter f l.
Proof.
  induction l as [|a l IH]; simpl.
  - reflexivity.
  - destruct (f a) eqn:E; simpl; [rewrite E |]; now rewrite IH.
Qed.

(** Only the rows of the whole match are read: dropping the rows of every
    other period from the frame leaves the summary as it is. *)
Theorem fetch_team_percentages_period (ss : Sofascore) (match_id : Z) (team : string) :
  fetch_team_percentages (with_team_stats ss (whole_match ss)) match_id team
  = fetch_team_percentages ss match_id team.
Proof.
  unfold fetch_team_percentages.
  cbn [with_team_stats scrape_team_match_stats get_team_names].
  unfold whole_match. now rewrite filter_idempotent.
Qed.

(** ** Match metadata, continued *)

Lemma civil_from_days_day (days : Z) : 1 <= day (civil_from_days days) <= 31.
Proof.
  unfold civil_from_days. cbn [day].
  set (doe := (days + 719468) mod 146097).
  assert (Hdoe : 0 <= doe < 146097) by (apply Z.mod_pos_bound; lia).
  set (yoe := (doe - doe / 1460 + doe / 36524 - doe / 146096) / 365).
  set (doy := doe - (365 * yoe + yoe / 4 - yoe / 100)).
  assert (Hdoy : 0 <= doy <= 365).
  { subst doy yoe. Z.to_euclidean_division_equations. lia. }
  clearbody doy. Z.to_euclidean_division_equations. lia.
Qed.

Lemma civil_from_days_year (days : Z) :
  0 <= days <= 2932896 -> 1970 <= year (civil_from_days days) <= 9999.
Proof.
  intros Hdays. unfold civil_from_days. cbn [year].
  set (z := days + 719468).
  set (doe := z mod 146097).
  set (era := z / 146097).
  assert (Hz : z = 146097 * era + doe) by (apply Z.div_mod; lia).
  assert (Hdoe : 0 <= doe < 146097) by (apply Z.mod_pos_bound; lia).
  set (yoe := (doe - doe / 1460 + doe / 36524 - doe / 146096) / 365).
  assert (Hyoe : 0 <= yoe <= 399).
  { subst yoe. Z.to_euclidean_division_equations. lia. }
  set (doy := doe - (365 * yoe + yoe / 4 - yoe / 100)).
  assert (Hdoy : 0 <= doy <= 365).
  { subst doy yoe. Z.to_euclidean_division_equations. lia. }
  set (mp := (5 * doy + 2) / 153).
  assert (Hmp : 0 <= mp <= 11).
  { subst mp. Z.to_euclidean_division_equations. lia. }
  assert (Hz' : 146097 * 4 + 135080 <= z <= 146097 * 24 + 146036) by (subst z; lia).
  assert (Hera : 4 <= era <= 24) by lia.
  assert (Hlow : era = 4 -> 369 <= yoe).
  { intros E4. assert (135080 <= doe) by lia.
    subst yoe. Z.to_euclidean_division_equations. lia. }
  destruct (mp <? 10) eqn:Emp.
  - apply Z.ltb_lt in Emp.
    replace (mp + 3 <=? 2) with false by (symmetry; apply Z.leb_gt; lia).
    (* March to December: the year of the era is at least 370 in era 4 *)
    assert (Hlow' : era = 4 -> 370 <= yoe).
    { intros E4. specialize (Hlow E4). assert (135080 <= doe) by lia.
      destruct (Z.eq_dec yoe 369) as [E | E]; [| lia]. exfalso.
      assert (Hdoy' : 306 <= doy).
      { subst doy. rewrite E. change (369 / 4) with 92. change (369 / 100) with 3. lia. }
      subst mp. clearbody doy. Z.to_euclidean_division_equations. lia. }
    destruct (Z.eq_dec era 4) as [E4 | E4]; [specialize (Hlow' E4) |]; lia.
  - apply Z.ltb_ge in Emp.
    replace (mp - 9 <=? 2) with true by (symmetry; apply Z.leb_le; lia).
    (* January and February: the year of the era is at most 398 in era 24 *)
    assert (Hhigh : era = 24 -> yoe <= 398).
    { intros E24. assert (doe <= 146036) by lia.
      destruct (Z.eq_dec yoe 399) as [E | E]; [| lia]. exfalso.
      assert (Hdoy' : doy <= 305).
      { subst doy. rewrite E. change (399 / 4) with 99. change (399 / 100) with 3. lia. }
      subst mp. clearbody doy. Z.to_euclidean_division_equations. lia. }
    destruct (Z.eq_dec era 4) as [E4 | E4]; [specialize (Hlow E4) |];
      (destruct (Z.eq_dec era 24) as [E24 | E24]; [specialize (Hhigh E24) |]); lia.
Qed.

(** Every match that starts, in local time, from 1970 to the end of the
    year 9999 gets its summary: the names and scores are those of the
    provider, the tournament is the provider's name put through the
    translation table, and the date reads day, month name of the table and
    year, for a day from 1 to 31 and a year from 1970 to 9999. *)
Theorem fetch_match_info_in_range (utcoffset : Z -> Z) (ss : Sofascore) (match_id : Z) :
  let match_dict := get_match_dict ss match_id in
  let ts := startTimestamp match_dict in
  0 <= ts + utcoffset ts < 253402300800 ->
  exists (info : MatchInfo) (d : datetime) (month_name : string),
    fetch_match_info utcoffset ss match_id = Ok info
    /\ fromtimestamp utcoffset ts = Ok d
    /\ 1970 <= year d <= 9999 /\ 1 <= day d <= 31
    /\ In (month d, month_name) TURKISH_MONTHS
    /\ date info
       = (Py.str (day d) ++ " " ++ month_name ++ " " ++ Py.str (year d))%string
    /\ tournament info = translate_tournament (tournament_name match_dict)
    /\ home_team info = homeTeam_name match_dict
    /\ away_team info = awayTeam_name match_dict
    /\ home_score info = homeScore_current match_dict
    /\ away_score info = awayScore_current match_dict.
Proof.
  intros match_dict ts Hts.
  set (d := civil_from_days ((ts + utcoffset ts) / 86400)).
  assert (Hdays : 0 <= (ts + utcoffset ts) / 86400 <= 2932896).
  { Z.to_euclidean_division_equations. lia. }
  pose proof (civil_from_days_year _ Hdays) as Hyear. fold d in Hyear.
  assert (Hprobe : 1 <= year (civil_from_days ((ts + utcoffset ts) / 86400 - 1))).
  { destruct (Z.eq_dec ((ts + utcoffset ts) / 86400) 0) as [E | E].
    - rewrite E. vm_compute. discriminate.
    - assert (H : 0 <= (ts + utcoffset ts) / 86400 - 1 <= 2932896) by lia.
      pose proof (civil_from_days_year _ H). lia. }
  assert (Hd : fromtimestamp utcoffset ts = Ok d).
  { unfold fromtimestamp. cbv zeta. fold d.
    replace (- 2 ^ 63 <=? ts + utcoffset ts) with true by (symmetry; apply Z.leb_le; lia).
    replace (ts + utcoffset ts <? 2 ^ 63) with true by (symmetry; apply Z.ltb_lt; lia).
    replace (- 2 ^ 31 <=? year d - 1900) with true by (symmetry; apply Z.leb_le; lia).
    replace (year d - 1900 <? 2 ^ 31) with true by (symmetry; apply Z.ltb_lt; lia).
    replace (1 <=? year d) with true by (symmetry; apply Z.leb_le; lia).
    replace (year d <=? 9999) with true by (symmetry; apply Z.leb_le; lia).
    replace (year (civil_from_days ((ts + utcoffset ts) / 86400 - 1)) <? 1)
      with false by (symmetry; apply Z.ltb_ge; lia).
    reflexivity. }
  destruct (TURKISH_MONTHS_complete (month d) (civil_from_days_month _)) as [mn Hmn].
  assert (Hin : In (month d, mn) TURKISH_MONTHS).
  { clear - Hmn. unfold Py.getitem in Hmn.
    induction TURKISH_MONTHS as [| [k v] t IH]; [discriminate |].
    cbn [Py.lookup] in Hmn. destruct (Z.eqb_spec (month d) k) as [-> | _].
    - injection Hmn as ->. now left.
    - right. now apply IH. }
  unfold fetch_match_info. fold match_dict ts. rewrite Hd. cbn [Py.bind].
  rewrite Hmn. cbn [Py.bind].
  eexists. exists d, mn. split; [reflexivity |]. split; [reflexivity |].
  split; [exact Hyear |]. split; [apply civil_from_days_day |].
  split; [exact Hin |]. repeat split; reflexivity.
Qed.

Lemma fetch_match_info_in_range_witness :
  exists info : MatchInfo,
    fetch_match_info Sample.utcoffset Sample.ss Sample.match_id = Ok info
    /\ date info = "30 Kasım 2025"
    /\ tournament info = "Ziraat Türkiye Kupası".
Proof.
  destruct (fetch_match_info_in_range Sample.utcoffset Sample.ss Sample.match_id)
    as [info [d [mn [Hinfo _]]]].
  - cbv. split; [discriminate | reflexivity].
  - exists info. split; [exact Hinfo |].
    vm_compute in Hinfo. injection Hinfo as <-. split; reflexivity.
Defined.

(** A name that the table has already put into Turkish is left alone:
    translating twice is translating once. *)
Theorem translate_tournament_idempotent (name_en : string) :
  translate_tournament (translate_tournament name_en)
  = translate_tournament name_en.
Proof.
  unfold translate_tournament, Py.get, TURKISH_TOURNAMENTS. cbn [Py.lookup].
  destruct (name_en =? "UEFA Champions League")%string eqn:E1; [reflexivity |].
  destruct (name_en =? "Süper Lig")%string eqn:E2; [reflexivity |].
  destruct (name_en =? "Turkish Cup")%string eqn:E3; [reflexivity |].
  destruct (name_en =? "Turkish Super Cup")%string eqn:E4; [reflexivity |].
  now rewrite E1, E2, E3, E4.
Qed.

(** ** The chart, continued *)

Lemma nth_error_arange (n i : nat) :
  (i < n)%nat -> nth_error (arange n) i = Some (Z.of_nat i).
Proof.
  intros Hi. unfold arange. rewrite nth_error_map.
  rewrite (nth_error_nth' _ 0%nat) by (rewrite length_seq; exact Hi).
  rewrite seq_nth by exact Hi. reflexivity.
Qed.

Lemma nth_arange (n i : nat) : (i < n)%nat -> nth i (arange n) 0 = Z.of_nat i.
Proof.
  intros Hi. apply nth_error_nth. now apply nth_error_arange.
Qed.

Lemma nth_error_combine {A B : Type} (l1 : list A) (l2 : list B) (i : nat) (a : A) (b : B) :
  nth_error l1 i = Some a -> nth_error l2 i = Some b ->
  nth_error (combine l1 l2) i = Some (a, b).
Proof.
  revert l2 i. induction l1 as [| x l1 IH]; intros l2 i Ha Hb.
  - destruct i; discriminate.
  - destruct l2 as [| y l2]; [destruct i; discriminate |].
    destruct i as [| i]; simpl in *.
    + congruence.
    + now apply IH.
Qed.

Lemma nth_error_enumerate_from {A : Type} (l : list A) (k : Z) (i : nat) (x : A) :
  nth_error l i = Some x ->
  nth_error (enumerate_from k l) i = Some (k + Z.of_nat i, x).
Proof.
  revert k i. induction l as [| y l IH]; intros k i Hx.
  - destruct i; discriminate.
  - destruct i as [| i]; simpl in *.
    + injection Hx as ->. do 2 f_equal. lia.
    + rewrite (IH (k + 1) i Hx). do 2 f_equal. lia.
Qed.

(** Two texts for each element: the texts of element [i] are at the
    positions [2 i] and [2 i + 1]. *)
Lemma nth_error_flat_map_pairs {A B : Type} (f g : A -> B) (l : list A) (i : nat) (x : A) :
  nth_error l i = Some x ->
  nth_error (flat_map (fun a => [f a; g a]) l) (2 * i) = Some (f x)
  /\ nth_error (flat_map (fun a => [f a; g a]) l) (2 * i + 1) = Some (g x).
Proof.
  revert i. induction l as [| y l IH]; intros i Hx.
  - destruct i; discriminate.
  - destruct i as [| i].
    + simpl in *. injection Hx as ->. now split.
    + simpl in Hx. destruct (IH i Hx) as [H1 H2].
      replace (2 * S i)%nat with (S (S (2 * i))) by lia.
      replace (S (S (2 * i)) + 1)%nat with (S (S (2 * i + 1))) by lia.
      simpl flat_map. simpl nth_error. now split.
Qed.

Lemma nth_error_lt {A : Type} (l : list A) (i : nat) (x : A) :
  nth_error l i = Some x -> (i < List.length l)%nat.
Proof. intros H. apply nth_error_Some. rewrite H. discriminate. Qed.

(** The bar of every player is stacked: for a player whose counts the
    [float64] arrays hold exactly (not negative, below 2^50), the won
    segment starts at 0 with the duels won for width, the lost segment
    starts where the won segment ends with the duels lost for width, both on
    the row of the player's index, and there are as many bars of each kind
    as players. *)
Theorem chart_bars_stacked (players : list PlayerDuel) (match_info : MatchInfo)
        (team_stats : TeamStats) (fig : Figure) (i : nat) (p : PlayerDuel) :
  create_chart players match_info team_stats = Ok fig ->
  nth_error players i = Some p ->
  exact_counts p ->
  List.length (bar1 (chart_section fig)) = List.length players
  /\ List.length (bar2 (chart_section fig)) = List.length players
  /\ exists won_bar lost_bar : Bar,
       nth_error (bar1 (chart_section fig)) i = Some won_bar
       /\ nth_error (bar2 (chart_section fig)) i = Some lost_bar
       /\ bar_y won_bar = Z.of_nat i /\ bar_y lost_bar = Z.of_nat i
       /\ bar_left won_bar = 0 /\ bar_width won_bar = won p
       /\ bar_left lost_bar = bar_left won_bar + bar_width won_bar
       /\ bar_width lost_bar = lost p
       /\ bar_left lost_bar + bar_width lost_bar = duel_total p.
Proof.
  intros Hfig Hp _. open_chart Hfig m.
  cbn [chart_section bar1 bar2].
  pose proof (nth_error_lt _ _ _ Hp) as Hi.
  assert (Hy : nth_error (arange (List.length players)) i = Some (Z.of_nat i))
    by now apply nth_error_arange.
  assert (Hw : nth_error (map won players) i = Some (won p))
    by (rewrite nth_error_map, Hp; reflexivity).
  assert (Hl : nth_error (map lost players) i = Some (lost p))
    by (rewrite nth_error_map, Hp; reflexivity).
  split; [| split].
  - rewrite length_map, length_combine, length_map. unfold arange.
    rewrite length_map, length_seq. lia.
  - rewrite length_map, !length_combine, !length_map. unfold arange.
    rewrite length_map, length_seq. lia.
  - eexists. eexists.
    rewrite !nth_error_map.
    rewrite (nth_error_combine _ _ _ _ _ Hy Hw).
    rewrite (nth_error_combine _ _ _ _ _ Hy (nth_error_combine _ _ _ _ _ Hw Hl)).
    cbn [option_map]. split; [reflexivity |]. split; [reflexivity |].
    cbn [bar_y bar_left bar_width fst snd]. unfold duel_total.
    repeat split; lia.
Qed.

Lemma chart_bars_stacked_witness :
  exists fig : Figure,
    create_chart Sample.duels Sample.match_info Sample.stats = Ok fig
    /\ List.length (bar1 (chart_section fig)) = 2%nat
    /\ List.length (bar2 (chart_section fig)) = 2%nat.
Proof.
  destruct (create_chart Sample.duels Sample.match_info Sample.stats)
    as [fig | e] eqn:E; [| discriminate E].
  exists fig. split; [reflexivity |].
  destruct (chart_bars_stacked Sample.duels Sample.match_info Sample.stats fig 1
              {| player := "A"; minutes := 90; won := 3; lost := 1 |} E eq_refl)
    as [H1 [H2 _]].
  - split; simpl; lia.
  - split; [exact H1 | exact H2].
Defined.

(** With counts that the [float64] arrays hold exactly (not negative, below
    2^50), every bar ends inside the horizontal axis and the total written
    after it starts inside the axis too: the label of player [i] is the
    decimal text of the total, a quarter to the right of the end of the bar,
    on the row of the player. *)
Theorem chart_totals_inside (players : list PlayerDuel) (match_info : MatchInfo)
        (team_stats : TeamStats) (fig : Figure) (i : nat) (p : PlayerDuel) :
  Forall exact_counts players ->
  create_chart players match_info team_stats = Ok fig ->
  nth_error players i = Some p ->
  let xlim := chart_xlim (chart_section fig) in
  exists t : Text,
    nth_error (chart_totals (chart_section fig)) i = Some t
    /\ text_s t = Py.str (duel_total p)
    /\ text_x t = (inject_Z (duel_total p) + (1 # 4))%Q
    /\ text_y t = inject_Z (Z.of_nat i)
    /\ fst xlim = 0
    /\ duel_total p < snd xlim
    /\ (inject_Z (fst xlim) < text_x t)%Q
    /\ (text_x t < inject_Z (snd xlim))%Q.
Proof.
  intros Hpos Hfig Hp xlim. subst xlim. open_chart Hfig m.
  pose proof (np_max_is_max_total players m Emax) as [[q [Hq Eq]] Hmax].
  rewrite Forall_forall in Hpos.
  assert (Hm : 0 <= m)
    by (destruct (Hpos q Hq) as [? ?]; unfold duel_total in Eq; lia).
  assert (Hpm : 0 <= duel_total p <= m).
  { pose proof (nth_error_In _ _ Hp) as Hin. destruct (Hpos p Hin) as [? ?].
    specialize (Hmax p Hin). unfold duel_total in *. lia. }
  pose proof (nth_error_lt _ _ _ Hp) as Hi.
  cbn [chart_section chart_totals chart_xlim fst snd].
  rewrite (int_of_Q_padding m Hm).
  assert (Ht : nth_error (enumerate (map duel_total players)) i
               = Some (0 + Z.of_nat i, duel_total p)).
  { apply nth_error_enumerate_from. rewrite nth_error_map, Hp. reflexivity. }
  eexists. rewrite nth_error_map, Ht. cbn [option_map].
  split; [reflexivity |]. cbn [text_s text_x text_y fst snd].
  split; [reflexivity |]. split; [reflexivity |].
  split.
  { replace (Z.to_nat (0 + Z.of_nat i)) with i by lia.
    now rewrite nth_arange. }
  split; [reflexivity |]. split; [lia |].
  unfold Qlt. cbn [Qplus inject_Z Qnum Qden Pos.mul]. split; lia.
Qed.

Lemma chart_totals_inside_witness :
  exists fig : Figure,
    create_chart Sample.duels Sample.match_info Sample.stats = Ok fig
    /\ exists t : Text,
         nth_error (chart_totals (chart_section fig)) 1 = Some t
         /\ text_s t = "4"
         /\ (text_x t < inject_Z (snd (chart_xlim (chart_section fig))))%Q.
Proof.
  destruct (create_chart Sample.duels Sample.match_info Sample.stats)
    as [fig | e] eqn:E; [| discriminate E].
  exists fig. split; [reflexivity |].
  destruct (chart_totals_inside Sample.duels Sample.match_info Sample.stats fig 1
              {| player := "A"; minutes := 90; won := 3; lost := 1 |})
    as [t [Ht [Hs [_ [_ [_ [_ [_ Hx]]]]]]]].
  - repeat constructor; simpl; lia.
  - exact E.
  - reflexivity.
  - exists t. split; [exact Ht |]. split; [exact Hs | exact Hx].
Defined.

(** The names stand beside their bars: the panel of the players has the
    vertical limits of the chart, the tick of row [i] is [i], and player [i]
    has two texts, the name on row [i] and the minutes played followed by
    the word dakika three tenths below, both between the limits. *)
Theorem players_aligned (players : list PlayerDuel) (match_info : MatchInfo)
        (team_stats : TeamStats) (fig : Figure) (i : nat) (p : PlayerDuel) :
  create_chart players match_info team_stats = Ok fig ->
  nth_error players i = Some p ->
  let ylim := chart_ylim (chart_section fig) in
  players_ylim (players_section fig) = ylim
  /\ nth_error (chart_yticks (chart_section fig)) i = Some (Z.of_nat i)
  /\ exists name_text minutes_text : Text,
       nth_error (players_texts (players_section fig)) (2 * i) = Some name_text
       /\ nth_error (players_texts (players_section fig)) (2 * i + 1)
          = Some minutes_text
       /\ text_s name_text = player p
       /\ text_y name_text = inject_Z (Z.of_nat i)
       /\ text_s minutes_text = (Py.str (minutes p) ++ " dakika")%string
       /\ text_y minutes_text = (inject_Z (Z.of_nat i) - (3 # 10))%Q
       /\ (fst ylim < text_y minutes_text)%Q
       /\ (text_y minutes_text < text_y name_text)%Q
       /\ (text_y name_text < snd ylim)%Q.
Proof.
  intros Hfig Hp ylim. subst ylim. open_chart Hfig m.
  pose proof (nth_error_lt _ _ _ Hp) as Hi.
  cbn [chart_section players_section chart_ylim players_ylim chart_yticks
       players_texts fst snd].
  split; [reflexivity |]. split; [now apply nth_error_arange |].
  assert (Henum : nth_error (enumerate players) i = Some (0 + Z.of_nat i, p))
    by now apply nth_error_enumerate_from.
  cbv zeta.
  match goal with
  | |- context [flat_map (fun ip => [@?f ip; @?g ip]) ?l] =>
      destruct (nth_error_flat_map_pairs f g l i _ Henum) as [H1 H2]
  end.
  eexists. eexists. rewrite H1, H2.
  split; [reflexivity |]. split; [reflexivity |].
  cbn [text_s text_y fst snd].
  replace (Z.to_nat (0 + Z.of_nat i)) with i by lia.
  rewrite (nth_arange _ _ Hi).
  split; [reflexivity |]. split; [reflexivity |].
  split; [reflexivity |]. split; [reflexivity |].
  unfold Qlt, Qminus, Qopp. cbn [Qplus inject_Z Qnum Qden Pos.mul].
  repeat split; lia.
Qed.

Lemma players_aligned_witness :
  exists fig : Figure,
    create_chart Sample.duels Sample.match_info Sample.stats = Ok fig
    /\ players_ylim (players_section fig) = chart_ylim (chart_section fig)
    /\ nth_error (chart_yticks (chart_section fig)) 1 = Some 1.
Proof.
  destruct (create_chart Sample.duels Sample.match_info Sample.stats)
    as [fig | e] eqn:E; [| discriminate E].
  exists fig. split; [reflexivity |].
  destruct (players_aligned Sample.duels Sample.match_info Sample.stats fig 1
              {| player := "A"; minutes := 90; won := 3; lost := 1 |} E eq_refl)
    as [H1 [H2 _]].
  split; [exact H1 | exact H2].
Defined.

(** ** The legend bar, continued *)

Lemma widths_in_range_0_100 :
  forallb widths_in_range (map Z.of_nat (seq 0 101)) = true.
Proof. vm_compute. reflexivity. Qed.

(** For a team percentage from 0 to 100 neither segment of the legend bar
    is negative or longer than the bar: in float64, both widths lie between
    0 and [LEGEND_TOTAL_WIDTH], and the team segment starts at 0. *)
Theorem legend_widths_in_range (players : list PlayerDuel) (match_info : MatchInfo)
        (team_stats : TeamStats) (fig : Figure) :
  0 <= team_pct team_stats <= 100 ->
  create_chart players match_info team_stats = Ok fig ->
  let teamWidth := lbar_width (lbar1 (legend_section fig)) in
  let opponentWidth := lbar_width (lbar2 (legend_section fig)) in
  lbar_left (lbar1 (legend_section fig)) = 0%float
  /\ PrimFloat.leb 0%float teamWidth = true
  /\ PrimFloat.leb teamWidth LEGEND_TOTAL_WIDTH = true
  /\ PrimFloat.leb 0%float opponentWidth = true
  /\ PrimFloat.leb opponentWidth LEGEND_TOTAL_WIDTH = true.
Proof.
  intros Hpct Hfig. open_chart Hfig m.
  cbn [legend_section lbar1 lbar2 lbar_width lbar_left].
  pose proof widths_in_range_0_100 as H. rewrite forallb_forall in H.
  assert (Hin : In (team_pct team_stats) (map Z.of_nat (seq 0 101))).
  { apply in_map_iff. exists (Z.to_nat (team_pct team_stats)).
    split; [lia | apply in_seq; lia]. }
  specialize (H _ Hin). unfold widths_in_range in H.
  rewrite !andb_true_iff in H. tauto.
Qed.

Lemma legend_widths_in_range_witness :
  exists fig : Figure,
    create_chart Sample.duels Sample.match_info Sample.stats = Ok fig
    /\ PrimFloat.leb 0%float (lbar_width (lbar2 (legend_section fig))) = true.
Proof.
  destruct (create_chart Sample.duels Sample.match_info Sample.stats)
    as [fig | e] eqn:E; [| discriminate E].
  exists fig. split; [reflexivity |].
  destruct (legend_widths_in_range Sample.duels Sample.match_info Sample.stats fig
              ltac:(simpl; lia) E)
    as [_ [_ [_ [H _]]]].
  exact H.
Defined.

(** ** The whole run *)

Lemma main_figure (utcoffset : Z -> Z) (ss : Sofascore) (match_id : Z)
      (team : string) (fig : Figure) :
  main utcoffset ss match_id team = Ok fig ->
  exists (match_info : MatchInfo) (team_stats : TeamStats),
    fetch_match_info utcoffset ss match_id = Ok match_info
    /\ fetch_team_percentages ss match_id team = Ok team_stats
    /\ create_chart (fetch_player_duels ss match_id team) match_info team_stats
       = Ok fig.
Proof.
  unfold main. intros H.
  destruct (fetch_match_info utcoffset ss match_id) as [mi | e]; [| discriminate H].
  destruct (fetch_team_percentages ss match_id team) as [ts | e]; [| discriminate H].
  now exists mi, ts.
Qed.

(** A run for a team of which no row passes the filter never yields a
    figure: it ends in an exception, whatever the provider returns
    otherwise. *)
Theorem main_without_players (utcoffset : Z -> Z) (ss : Sofascore) (match_id : Z)
        (team : string) :
  eligible_rows ss match_id team = [] ->
  exists e : Py.exn, main utcoffset ss match_id team = Err e.
Proof.
  intros Hnone. unfold main.
  destruct (fetch_match_info utcoffset ss match_id) as [mi | e];
    cbn [Py.bind]; [| now exists e].
  destruct (fetch_team_percentages ss match_id team) as [ts | e];
    cbn [Py.bind]; [| now exists e].
  exists ValueError. unfold fetch_player_duels, ranked_duels. now rewrite Hnone.
Qed.

Lemma main_without_players_witness :
  exists e : Py.exn,
    main Sample.utcoffset Sample.ss Sample.match_id "Trabzonspor" = Err e.
Proof.
  exact (main_without_players Sample.utcoffset Sample.ss Sample.match_id
           "Trabzonspor" eq_refl).
Defined.

Lemma map_snd_combine {A B C : Type} (g : B -> C) (l1 : list A) (l2 : list B) :
  List.length l1 = List.length l2 ->
  map (fun ab => g (snd ab)) (combine l1 l2) = map g l2.
Proof.
  revert l2. induction l1 as [| a l1 IH]; intros [| b l2] Hlen;
    try discriminate; simpl; [reflexivity |].
  f_equal. apply IH. now injection Hlen.
Qed.

Lemma length_arange (n : nat) : List.length (arange n) = n.
Proof. unfold arange. now rewrite length_map, length_seq. Qed.

(** The widths of the two kinds of bars, row by row. *)
Lemma chart_bar_widths (players : list PlayerDuel) (match_info : MatchInfo)
      (team_stats : TeamStats) (fig : Figure) :
  create_chart players match_info team_stats = Ok fig ->
  map bar_width (bar1 (chart_section fig)) = map won players
  /\ map bar_width (bar2 (chart_section fig)) = map lost players.
Proof.
  intros Hfig. open_chart Hfig m. cbn [chart_section bar1 bar2].
  rewrite !map_map. cbn [bar_width]. split.
  - rewrite (map_snd_combine (fun w => w)), map_id;
      [reflexivity | now rewrite length_arange, length_map].
  - rewrite (map_snd_combine (fun wl : Z * Z => snd wl)).
    + rewrite (map_snd_combine (fun l => l)), map_id;
        [reflexivity | now rewrite !length_map].
    + now rewrite length_arange, length_combine, !length_map, Nat.min_id.
Qed.

Lemma rev_adjacent {A : Type} (l : list A) (i : nat) (a b : A) :
  nth_error (rev l) i = Some a -> nth_error (rev l) (S i) = Some b ->
  exists j : nat, nth_error l j = Some b /\ nth_error l (S j) = Some a.
Proof.
  intros Ha Hb.
  assert (Hi : (S i < List.length l)%nat).
  { rewrite <- length_rev. apply nth_error_Some. rewrite Hb. discriminate. }
  rewrite nth_error_rev in Ha, Hb.
  destruct (Nat.ltb_spec i (List.length l)) as [_ | ?]; [| lia].
  destruct (Nat.ltb_spec (S i) (List.length l)) as [_ | ?]; [| lia].
  exists (List.length l - S (S i))%nat. split; [exact Hb |].
  now replace (S (List.length l - S (S i))) with (List.length l - S i)%nat by lia.
Qed.

(** In the figure of a run on a frame whose eligible rows have counts that
    are not negative and below 2^50, the bars are those of the eligible
    rows, one each, and they grow from the bottom to the top of the chart:
    the won and lost widths of row [i] are the counts of the [i]-th record
    of the builder, and the whole bar of a row is never longer than the bar
    of the row above it. *)
Theorem main_bars_grow_upwards (utcoffset : Z -> Z) (ss : Sofascore) (match_id : Z)
        (team : string) (fig : Figure) :
  main utcoffset ss match_id team = Ok fig ->
  Forall small_row (eligible_rows ss match_id team) ->
  let players := fetch_player_duels ss match_id team in
  let won_widths := map bar_width (bar1 (chart_section fig)) in
  let lost_widths := map bar_width (bar2 (chart_section fig)) in
  won_widths = map won players
  /\ lost_widths = map lost players
  /\ List.length won_widths
     = List.length (filter (eligibleb team) (scrape_player_match_stats ss match_id))
  /\ (forall (i : nat) (w l w' l' : Z),
         nth_error won_widths i = Some w -> nth_error lost_widths i = Some l ->
         nth_error won_widths (S i) = Some w' -> nth_error lost_widths (S i) = Some l' ->
         w + l <= w' + l').
Proof.
  intros Hmain Hsmall players won_widths lost_widths.
  assert (Hrange : Forall counts_in_range (eligible_rows ss match_id team)).
  { apply Forall_forall. intros r Hr. rewrite Forall_forall in Hsmall.
    destruct (Hsmall r Hr) as [Hw Hl]. split; lia. }
  destruct (main_figure _ _ _ _ _ Hmain) as [mi [ts [_ [_ Hfig]]]].
  destruct (chart_bar_widths _ _ _ _ Hfig) as [Hw Hl]. fold players in Hw, Hl.
  subst won_widths lost_widths. rewrite Hw, Hl.
  split; [reflexivity |]. split; [reflexivity |]. split.
  - rewrite length_map. subst players.
    rewrite (Permutation_length (fetch_player_duels_perm ss match_id team)).
    now rewrite length_map, eligible_rows_filter.
  - intros i w l w' l'. rewrite !nth_error_map.
    destruct (nth_error players i) as [a |] eqn:Ea; [| discriminate].
    destruct (nth_error players (S i)) as [b |] eqn:Eb; [| discriminate].
    cbn [option_map]. intros Hw1 Hl1 Hw2 Hl2.
    injection Hw1 as <-. injection Hl1 as <-. injection Hw2 as <-. injection Hl2 as <-.
    subst players. unfold fetch_player_duels in Ea, Eb.
    destruct (rev_adjacent _ _ _ _ Ea Eb) as [j [Hb Ha]].
    destruct (ranked_duels_adjacent ss match_id team j b a Hrange Hb Ha) as [H _].
    exact H.
Qed.

Lemma main_bars_grow_upwards_witness :
  exists fig : Figure,
    main Sample.utcoffset Sample.ss Sample.match_id "Galatasaray" = Ok fig
    /\ map bar_width (bar1 (chart_section fig)) = [0; 3; 4; 5; 5]
    /\ map bar_width (bar2 (chart_section fig)) = [3; 0; 4; 3; 3].
Proof.
  assert (Hrun : exists fig : Figure,
             main Sample.utcoffset Sample.ss Sample.match_id "Galatasaray" = Ok fig)
    by (vm_compute; eexists; reflexivity).
  destruct Hrun as [fig E]. exists fig. split; [exact E |].
  destruct (main_bars_grow_upwards _ _ _ _ fig E) as [H1 [H2 _]].
  - repeat constructor; simpl; lia.
  - rewrite H1, H2. split; reflexivity.
Defined.

(** The figure of a run carries, at the end of the legend bar, the decimal
    text of all the duels won: the home and away values of the ground and
    aerial rows added up, whichever team was asked for. *)
Theorem main_legend_total (utcoffset : Z -> Z) (ss : Sofascore) (match_id : Z)
        (team : string) (fig : Figure) :
  main utcoffset ss match_id team = Ok fig ->
  exists ground_row aerial_row : TeamStat.row,
    stat_row ss match_id "Ground duels" = Some ground_row
    /\ stat_row ss match_id "Aerial duels" = Some aerial_row
    /\ legend_total_s (legend_section fig)
       = Py.str (TeamStat.homeValue ground_row + TeamStat.homeValue aerial_row
                 + TeamStat.awayValue ground_row + TeamStat.awayValue aerial_row).
Proof.
  intros Hmain.
  destruct (main_figure _ _ _ _ _ Hmain) as [mi [ts [_ [Hts Hfig]]]].
  open_chart Hfig m. cbn [legend_section legend_total_s].
  revert Hts. open_rows ss match_id; try discriminate. cbv zeta.
  destruct (Py.int_of_str _) as [p | e1]; cbn [Py.bind]; [| discriminate].
  destruct (Py.int_of_str _) as [q | e2]; cbn [Py.bind]; [| discriminate].
  intros H. injection H as <-. cbn [total].
  exists ground_row, aerial_row. split; [reflexivity |]. split; [reflexivity |].
  f_equal. destruct (_ =? _)%string; lia.
Qed.

Lemma main_legend_total_witness :
  exists fig : Figure,
    main Sample.utcoffset Sample.ss Sample.match_id "Galatasaray" = Ok fig
    /\ legend_total_s (legend_section fig) = "103".
Proof.
  assert (Hrun : exists fig : Figure,
             main Sample.utcoffset Sample.ss Sample.match_id "Galatasaray" = Ok fig)
    by (vm_compute; eexists; reflexivity).
  destruct Hrun as [fig E]. exists fig. split; [exact E |].
  destruct (main_legend_total _ _ _ _ fig E) as [g [a [Hg [Ha ->]]]].
  vm_compute in Hg. injection Hg as <-. vm_compute in Ha. injection Ha as <-.
  reflexivity.
Defined.

(** ** What a run prints *)

Lemma main_stdout_result (utcoffset : Z -> Z) (ss : Sofascore) (match_id : Z)
      (team output : string) :
  snd (main_stdout utcoffset ss match_id team output)
  = main utcoffset ss match_id team.
Proof.
  unfold main_stdout, main.
  destruct (fetch_match_info utcoffset ss match_id) as [mi | e]; [| reflexivity].
  destruct (fetch_team_percentages ss match_id team) as [ts | e]; [| reflexivity].
  cbn [Py.bind].
  destruct (create_chart _ mi ts); reflexivity.
Qed.

(** The line that announces the saved chart is printed exactly when the run
    yields a figure, and it is then the last line; a run that raises has
    not printed it.  The result beside the lines is the result of [main]. *)
Theorem main_stdout_saved (utcoffset : Z -> Z) (ss : Sofascore) (match_id : Z)
        (team output : string) :
  let run := main_stdout utcoffset ss match_id team output in
  let saved := ("Chart saved to " ++ output)%string in
  snd run = main utcoffset ss match_id team
  /\ (In saved (fst run) <-> exists fig : Figure, snd run = Ok fig)
  /\ ((exists fig : Figure, snd run = Ok fig) -> hd_error (rev (fst run)) = Some saved).
Proof.
  intros run saved. split; [apply main_stdout_result |].
  subst run saved. unfold main_stdout.
  destruct (fetch_match_info utcoffset ss match_id) as [mi | e].
  2:{ cbn [fst snd]. split; [split |].
      - intros [H | []]. discriminate H.
      - intros [fig H]. discriminate H.
      - intros [fig H]. discriminate H. }
  destruct (fetch_team_percentages ss match_id team) as [ts | e].
  2:{ cbn [fst snd]. split; [split |].
      - cbn [app]. intros [H | [H | [H | []]]]; discriminate H.
      - intros [fig H]. discriminate H.
      - intros [fig H]. discriminate H. }
  destruct (create_chart _ mi ts) as [fig | e]; cbn [fst snd].
  - split; [split |].
    + intros _. now exists fig.
    + intros _. apply in_or_app. right. now left.
    + intros _. rewrite rev_app_distr. reflexivity.
  - split; [split |].
    + cbn [app]. intros [H | [H | [H | [H | [H | []]]]]]; discriminate H.
    + intros [fig H]. discriminate H.
    + intros [fig H]. discriminate H.
Qed.

(** Once the match summary is fetched, the third line printed tells how many
    rows passed the filter, for the requested team, whether the run then
    succeeds or not. *)
Theorem main_stdout_found (utcoffset : Z -> Z) (ss : Sofascore) (match_id : Z)
        (team output : string) (match_info : MatchInfo) :
  fetch_match_info utcoffset ss match_id = Ok match_info ->
  let found :=
    List.length (filter (eligibleb team) (scrape_player_match_stats ss match_id)) in
  nth_error (fst (main_stdout utcoffset ss match_id team output)) 2
  = Some ("Found " ++ Py.str (Z.of_nat found) ++ " starting players for " ++ team)%string.
Proof.
  intros Hinfo found. unfold main_stdout. rewrite Hinfo.
  assert (Hlen : List.length (fetch_player_duels ss match_id team) = found).
  { rewrite (Permutation_length (fetch_player_duels_perm ss match_id team)).
    now rewrite length_map, eligible_rows_filter. }
  rewrite Hlen.
  destruct (fetch_team_percentages ss match_id team) as [ts | e]; [| reflexivity].
  destruct (create_chart _ match_info ts); reflexivity.
Qed.

Lemma main_stdout_found_witness :
  nth_error (fst (main_stdout Sample.utcoffset Sample.ss Sample.match_id
                              "Trabzonspor" "duels_chart.png")) 2
  = Some "Found 0 starting players for Trabzonspor".
Proof.
  exact (main_stdout_found Sample.utcoffset Sample.ss Sample.match_id
           "Trabzonspor" "duels_chart.png" Sample.match_info eq_refl).
Defined.

(** ** Edges of the run time *)

(** [int] skips the space and the controls 9 to 13 only, and refuses a
    literal of more digits than the limit. *)
Example int_of_str_edges :
  Py.int_of_str (String (ascii_of_nat 9) "51 ") = Ok 51
  /\ Py.int_of_str (String (ascii_of_nat 28) "51") = Err ValueError
  /\ Py.int_of_str (string_of_list_ascii (repeat "1"%char 4300)) <> Err ValueError
  /\ Py.int_of_str (string_of_list_ascii (repeat "1"%char 4301)) = Err ValueError.
Proof.
  split; [reflexivity |]. split; [reflexivity |]. split.
  - vm_compute. discriminate.
  - vm_compute. reflexivity.
Qed.

(** In UTC: the first day of the year 1 is refused, the second is a date;
    a time far off does not fit the C structure, a time beyond 64 bits does
    not fit [time_t]. *)
Example fromtimestamp_edges :
  fromtimestamp (fun _ => 0) (- 62135596800) = Err ValueError
  /\ fromtimestamp (fun _ => 0) (- 62135596800 + 86400)
     = Ok {| year := 1; month := 1; day := 2 |}
  /\ fromtimestamp (fun _ => 0) 253402300799
     = Ok {| year := 9999; month := 12; day := 31 |}
  /\ fromtimestamp (fun _ => 0) 253402300800 = Err ValueError
  /\ fromtimestamp (fun _ => 0) (10 ^ 17) = Err OSError
  /\ fromtimestamp (fun _ => 0) (2 ^ 63) = Err OverflowError.
Proof. repeat split; reflexivity. Qed.

(** On the frame with the count near the end of [int64] the total of the
    second player wraps around and the first is ranked before it. *)
Example overflow_ranking :
  map player (ranked_duels Overflow.ss Sample.match_id "Galatasaray")
  = ["Small"; "Huge"]
  /\ map player (fetch_player_duels Overflow.ss Sample.match_id "Galatasaray")
     = ["Huge"; "Small"]
  /\ int64_add (2 ^ 62) (2 ^ 62) = - 2 ^ 63.
Proof. repeat split; reflexivity. Qed.
